(** * Inference serving pipeline: artifact cache and prediction pipeline

    A shallow embedding of [app/model_loader.py], [app/inference.py],
    [app/schemas.py] and the parts of [app/settings.py] and
    [app/monitoring.py] they use.

    Python code that reads or writes the module globals, touches the
    artifact files or raises is written in a state-and-exception monad
    [py] over an explicit [world].  Floating-point values stay abstract
    (class [Scalar]): the code only moves them around and compares them,
    all arithmetic happens inside the two opaque artifacts. *)

From Stdlib Require Import ZArith String List Bool Lia DecimalString.
From stdpp Require Import base list strings gmap.

Set Warnings "-register-all,-notation-for-abbreviation".

Open Scope string_scope.
Open Scope Z_scope.

(** ** Numbers *)

(** Python floats as far as the code uses them.  [lt a b] is [a < b],
    [le a b] is [a <= b]; [a > b] is written [lt b a].  [float32] is the
    conversion done by [np.array(..., dtype=np.float32)]. *)
Class Scalar : Type := {
  num : Type;
  zero : num;
  lt : num -> num -> bool;
  le : num -> num -> bool;
  float32 : num -> num
}.

(** ** Python exceptions *)

Module Py.

Inductive exn_class : Type :=
| Exception
| ValueError
| RuntimeError
| FileNotFoundError
| IndexError
| TypeError
| Derived (name : string) (base : exn_class).

(** An exception instance: its class, the message [str(e)] and the
    [__cause__] set by [raise ... from e]. *)
Inductive exn : Type :=
| mk_exn (cls : exn_class) (msg : string) (cause : option exn).

Definition exn_cls (e : exn) : exn_class :=
  match e with mk_exn c _ _ => c end.

Definition str (e : exn) : string :=
  match e with mk_exn _ m _ => m end.

Definition exn_cause (e : exn) : option exn :=
  match e with mk_exn _ _ c => c end.

(** [issubclass(c, ValueError)] *)
Fixpoint is_ValueError_class (c : exn_class) : bool :=
  match c with
  | ValueError => true
  | Derived _ b => is_ValueError_class b
  | _ => false
  end.

(** [isinstance(e, ValueError)], the test of [except ValueError]. *)
Definition is_ValueError (e : exn) : bool := is_ValueError_class (exn_cls e).

Inductive result (A : Type) : Type :=
| Return (a : A)
| Raise (e : exn).

Arguments Return {A} a.
Arguments Raise {A} e.

Definition is_Return {A : Type} (r : result A) : bool :=
  match r with Return _ => true | Raise _ => false end.

(** [str(n)] for a Python int. *)
Definition str_of_int (n : Z) : string := NilZero.string_of_int (Z.to_int n).

End Py.

Export Py.

(** ** The two opaque artifacts *)

Section Artifacts.
Context `{Scalar}.

(** A 2-D [ndarray], row-major. *)
Definition matrix : Type := list (list num).

(** An [ndarray] of any rank, as the model returns it. *)
Inductive ndarray : Type :=
| Item (x : num)
| Array (items : list ndarray).

(** The Keras model: [input_shape] and [output_shape] are properties
    that may raise, [predict] maps a rank-3 tensor to an array. *)
Record Model : Type := {
  input_shape : result string;
  output_shape : result string;
  model_predict : list matrix -> result ndarray
}.

(** The scikit-learn scaler. *)
Record Scaler : Type := {
  n_features_in_ : option nat;
  transform : matrix -> result matrix;
  inverse_transform : matrix -> result matrix
}.

End Artifacts.

(** ** Settings *)

(** The members of [Settings] the core reads; all of them come from the
    environment once, at import time. *)
Record Settings : Type := {
  MODEL_VERSION : string;
  LOOKBACK : Z;
  FEATURES : list string;
  TARGET : string;
  MODEL_PATH : string;
  SCALER_PATH : string
}.

(** The values [Settings] takes when no environment variable is set,
    for an application rooted at [base_dir]. *)
Definition default_settings (base_dir : string) : Settings := {|
  MODEL_VERSION := "1.0";
  LOOKBACK := 60;
  FEATURES := ["open"; "high"; "low"; "close"; "volume"];
  TARGET := "close";
  MODEL_PATH := base_dir ++ "/artifacts/amzn_lstm_model.keras";
  SCALER_PATH := base_dir ++ "/artifacts/scaler.save"
|}.

(** ** The world: module globals, artifact storage, observations *)

Inductive artifact : Type := ModelArtifact | ScalerArtifact.

(** What the process does to the artifact cache and to storage, in
    order: a call of an accessor, a [Path.exists()] test, a read of the
    file by [load_model] / [joblib.load]. *)
Inductive event : Type :=
| Accessor (a : artifact)
| PathExists (a : artifact)
| ReadFile (a : artifact).

(** An artifact file: absent, present but failing to load with [e], or
    present and loading to [a]. *)
Inductive file (A : Type) : Type :=
| Missing
| Unreadable (e : exn)
| Stored (a : A).

Arguments Missing {A}.
Arguments Unreadable {A} e.
Arguments Stored {A} a.

Section World.
Context `{Scalar}.

Record world : Type := {
  (* globals of model_loader.py *)
  _model_cache : option Model;
  _scaler_cache : option Scaler;
  _load_attempted : bool;
  (* RequestMetrics.metrics["total_errors"] *)
  total_errors : nat;
  (* the environment *)
  tensorflow : result unit;
  model_file : file Model;
  scaler_file : file Scaler;
  (* observation *)
  trace : list event
}.

Definition set_model_cache (v : option Model) (w : world) : world :=
  {| _model_cache := v; _scaler_cache := _scaler_cache w;
     _load_attempted := _load_attempted w; total_errors := total_errors w;
     tensorflow := tensorflow w; model_file := model_file w;
     scaler_file := scaler_file w; trace := trace w |}.

Definition set_scaler_cache (v : option Scaler) (w : world) : world :=
  {| _model_cache := _model_cache w; _scaler_cache := v;
     _load_attempted := _load_attempted w; total_errors := total_errors w;
     tensorflow := tensorflow w; model_file := model_file w;
     scaler_file := scaler_file w; trace := trace w |}.

Definition set_load_attempted (v : bool) (w : world) : world :=
  {| _model_cache := _model_cache w; _scaler_cache := _scaler_cache w;
     _load_attempted := v; total_errors := total_errors w;
     tensorflow := tensorflow w; model_file := model_file w;
     scaler_file := scaler_file w; trace := trace w |}.

Definition set_total_errors (v : nat) (w : world) : world :=
  {| _model_cache := _model_cache w; _scaler_cache := _scaler_cache w;
     _load_attempted := _load_attempted w; total_errors := v;
     tensorflow := tensorflow w; model_file := model_file w;
     scaler_file := scaler_file w; trace := trace w |}.

Definition observe (e : event) (w : world) : world :=
  {| _model_cache := _model_cache w; _scaler_cache := _scaler_cache w;
     _load_attempted := _load_attempted w; total_errors := total_errors w;
     tensorflow := tensorflow w; model_file := model_file w;
     scaler_file := scaler_file w; trace := trace w ++ [e] |}.

(** The environment changing under the process: the scaler file is
    replaced. *)
Definition put_scaler_file (f : file Scaler) (w : world) : world :=
  {| _model_cache := _model_cache w; _scaler_cache := _scaler_cache w;
     _load_attempted := _load_attempted w; total_errors := total_errors w;
     tensorflow := tensorflow w; model_file := model_file w;
     scaler_file := f; trace := trace w |}.

(** The same for the model file. *)
Definition put_model_file (f : file Model) (w : world) : world :=
  {| _model_cache := _model_cache w; _scaler_cache := _scaler_cache w;
     _load_attempted := _load_attempted w; total_errors := total_errors w;
     tensorflow := tensorflow w; model_file := f;
     scaler_file := scaler_file w; trace := trace w |}.

(** A freshly started process: the globals as [model_loader.py]
    initialises them, nothing observed yet. *)
Definition fresh (tf : result unit) (mf : file Model) (sf : file Scaler) : world :=
  {| _model_cache := None; _scaler_cache := None; _load_attempted := false;
     total_errors := 0%nat; tensorflow := tf; model_file := mf;
     scaler_file := sf; trace := [] |}.

(** Storage accesses (existence tests and reads) of one artifact. *)
Definition is_storage_access (a : artifact) (e : event) : bool :=
  match e, a with
  | PathExists ModelArtifact, ModelArtifact => true
  | ReadFile ModelArtifact, ModelArtifact => true
  | PathExists ScalerArtifact, ScalerArtifact => true
  | ReadFile ScalerArtifact, ScalerArtifact => true
  | _, _ => false
  end.

Definition is_read (a : artifact) (e : event) : bool :=
  match e, a with
  | ReadFile ModelArtifact, ModelArtifact => true
  | ReadFile ScalerArtifact, ScalerArtifact => true
  | _, _ => false
  end.

Definition is_accessor_call (e : event) : bool :=
  match e with Accessor _ => true | _ => false end.

Definition storage_accesses (a : artifact) (w : world) : list event :=
  List.filter (is_storage_access a) (trace w).

Definition reads (a : artifact) (w : world) : nat :=
  length (List.filter (is_read a) (trace w)).

Definition accessor_calls (w : world) : list event :=
  List.filter is_accessor_call (trace w).

(** ** The monad of Python code *)

Definition py (A : Type) : Type := world -> result A * world.

Definition ret {A : Type} (a : A) : py A := fun w => (Return a, w).

Definition raise {A : Type} (e : exn) : py A := fun w => (Raise e, w).

Definition bind {A B : Type} (c : py A) (k : A -> py B) : py B :=
  fun w =>
    match c w with
    | (Return a, w') => k a w'
    | (Raise e, w') => (Raise e, w')
    end.

(** [try: c  except Exception as e: h e] *)
Definition try_except {A : Type} (c : py A) (h : exn -> py A) : py A :=
  fun w =>
    match c w with
    | (Return a, w') => (Return a, w')
    | (Raise e, w') => h e w'
    end.

Definition gets {A : Type} (f : world -> A) : py A := fun w => (Return (f w), w).

Definition modify (f : world -> world) : py unit := fun w => (Return tt, f w).

(** A pure computation that may raise. *)
Definition lift {A : Type} (r : result A) : py A := fun w => (r, w).

End World.

Declare Scope py_scope.
Delimit Scope py_scope with py.
Notation "x <- c ;; k" := (bind c (fun x => k))
  (at level 20, c at level 99, k at level 200, only parsing) : py_scope.
Notation "c ;; k" := (bind c (fun _ => k))
  (at level 100, k at level 200, right associativity, only parsing) : py_scope.

(** ** [app/model_loader.py] *)

Module model_loader.

(** The values [get_model_info] puts in its dict. *)
Inductive info_value : Type :=
| InfoBool (b : bool)
| InfoStr (s : string)
| InfoCount (n : option nat).

Section ModelLoader.
Context `{Scalar}.
Variable settings : Settings.

Local Open Scope py_scope.

(** [import tensorflow as tf], done lazily inside [get_model]. *)
Definition import_tensorflow : py unit := fun w => (tensorflow w, w).

(** [settings.MODEL_PATH.exists()] *)
Definition model_path_exists : py bool :=
  fun w =>
    (Return (match model_file w with Missing => false | _ => true end),
     observe (PathExists ModelArtifact) w).

(** [tf.keras.models.load_model(str(settings.MODEL_PATH))] *)
Definition load_model : py Model :=
  fun w =>
    (match model_file w with
     | Stored m => Return m
     | Unreadable e => Raise e
     | Missing =>
         Raise (mk_exn ValueError
                  ("File not found: filepath=" ++ MODEL_PATH settings) None)
     end,
     observe (ReadFile ModelArtifact) w).

(** [settings.SCALER_PATH.exists()] *)
Definition scaler_path_exists : py bool :=
  fun w =>
    (Return (match scaler_file w with Missing => false | _ => true end),
     observe (PathExists ScalerArtifact) w).

(** [joblib.load(settings.SCALER_PATH)] *)
Definition joblib_load : py Scaler :=
  fun w =>
    (match scaler_file w with
     | Stored s => Return s
     | Unreadable e => Raise e
     | Missing =>
         Raise (mk_exn FileNotFoundError
                  ("[Errno 2] No such file or directory: " ++ SCALER_PATH settings)
                  None)
     end,
     observe (ReadFile ScalerArtifact) w).

Definition latched_message : string :=
  "Tentativa anterior de carregar o modelo falhou. Reinicie a aplicação.".

(** The [try] block of [get_model]. *)
Definition get_model_try : py Model :=
  import_tensorflow ;;
  found <- model_path_exists ;;
  if negb found then
    raise (mk_exn FileNotFoundError
             ("Arquivo do modelo não encontrado: " ++ MODEL_PATH settings) None)
  else
    m <- load_model ;;
    modify (set_model_cache (Some m)) ;;
    (* the log line formats [_model_cache.input_shape] *)
    lift (input_shape m) ;;
    ret m.

(** The [except Exception as e] block of [get_model]. *)
Definition get_model_except (e : exn) : py Model :=
  modify (set_model_cache None) ;;
  modify (set_load_attempted false) ;;
  raise (mk_exn RuntimeError ("Falha ao carregar modelo: " ++ str e) (Some e)).

Definition get_model : py Model :=
  modify (observe (Accessor ModelArtifact)) ;;
  cached <- gets _model_cache ;;
  match cached with
  | Some m => ret m
  | None =>
      attempted <- gets _load_attempted ;;
      if attempted then raise (mk_exn RuntimeError latched_message None)
      else
        modify (set_load_attempted true) ;;
        try_except get_model_try get_model_except
  end.

(** The [try] block of [get_scaler]. *)
Definition get_scaler_try : py Scaler :=
  found <- scaler_path_exists ;;
  if negb found then
    raise (mk_exn FileNotFoundError
             ("Arquivo do scaler não encontrado: " ++ SCALER_PATH settings) None)
  else
    s <- joblib_load ;;
    modify (set_scaler_cache (Some s)) ;;
    ret s.

(** The [except Exception as e] block of [get_scaler]. *)
Definition get_scaler_except (e : exn) : py Scaler :=
  modify (set_scaler_cache None) ;;
  raise (mk_exn RuntimeError ("Falha ao carregar scaler: " ++ str e) (Some e)).

Definition get_scaler : py Scaler :=
  modify (observe (Accessor ScalerArtifact)) ;;
  cached <- gets _scaler_cache ;;
  match cached with
  | Some s => ret s
  | None => try_except get_scaler_try get_scaler_except
  end.

Definition load_model_and_scaler : py (Model * Scaler) :=
  try_except
    (model <- get_model ;;
     scaler <- get_scaler ;;
     ret (model, scaler))
    (fun e => raise e).

Definition is_model_loaded (w : world) : bool :=
  match _model_cache w with Some _ => true | None => false end.

Definition is_scaler_loaded (w : world) : bool :=
  match _scaler_cache w with Some _ => true | None => false end.

Definition clear_cache : py unit :=
  modify (set_model_cache None) ;;
  modify (set_scaler_cache None) ;;
  modify (set_load_attempted false).

(** [n] calls of an accessor in a row, with the results in order. *)
Fixpoint repeat_call {A : Type} (c : py A) (n : nat) (w : world)
  : list (result A) * world :=
  match n with
  | O => ([], w)
  | S n' =>
      let (r, w') := c w in
      let (rs, w'') := repeat_call c n' w' in
      (r :: rs, w'')
  end.

Definition get_model_info : py (gmap string info_value) :=
  model_loaded <- gets is_model_loaded ;;
  scaler_loaded <- gets is_scaler_loaded ;;
  let info : gmap string info_value :=
    <["scaler_loaded" := InfoBool scaler_loaded]>
      (<["model_loaded" := InfoBool model_loaded]> ∅) in
  has_model <- gets is_model_loaded ;;
  info <- (if has_model then
             model <- get_model ;;
             shape_in <- lift (input_shape model) ;;
             shape_out <- lift (output_shape model) ;;
             ret (<["output_shape" := InfoStr shape_out]>
                    (<["input_shape" := InfoStr shape_in]> info))
           else ret info) ;;
  has_scaler <- gets is_scaler_loaded ;;
  if has_scaler then
    scaler <- get_scaler ;;
    ret (<["n_features" := InfoCount (n_features_in_ scaler)]> info)
  else ret info.

(** The line feed. *)
Definition newline : string := String (Ascii.ascii_of_nat 10) "".

(** [Settings.validate]: every failed check adds a line, and any line
    makes it raise. *)
Definition validate : py bool :=
  model_found <- model_path_exists ;;
  let errors1 :=
    if negb model_found then ["Modelo não encontrado: " ++ MODEL_PATH settings]
    else [] in
  scaler_found <- scaler_path_exists ;;
  let errors2 :=
    if negb scaler_found
    then app errors1 ["Scaler não encontrado: " ++ SCALER_PATH settings]
    else errors1 in
  let errors3 :=
    if LOOKBACK settings <=? 0
    then app errors2 ["LOOKBACK deve ser > 0, valor atual: " ++
                      str_of_int (LOOKBACK settings)]
    else errors2 in
  let errors4 :=
    if (length (FEATURES settings) =? 0)%nat
    then app errors3 ["FEATURES não pode estar vazio"]
    else errors3 in
  match errors4 with
  | [] => ret true
  | _ :: _ =>
      raise (mk_exn ValueError
               ("Erros na configuração:" ++ newline ++
                String.concat newline errors4) None)
  end.

(** The state the guard of [get_model] tests for: an attempt was
    recorded and no model is cached. *)
Definition latched (w : world) : bool :=
  _load_attempted w && negb (is_model_loaded w).

(** One thing that can happen to the world: a call into the cache, or
    the environment replacing a file. *)
Inductive step : world -> world -> Prop :=
| step_get_model w : step w (snd (get_model w))
| step_get_scaler w : step w (snd (get_scaler w))
| step_clear_cache w : step w (snd (clear_cache w))
| step_error_count w n : step w (set_total_errors n w)
| step_model_file w f : step w (put_model_file f w)
| step_scaler_file w f : step w (put_scaler_file f w).

Inductive reachable : world -> Prop :=
| reachable_fresh tf mf sf : reachable (fresh tf mf sf)
| reachable_step w w' : reachable w -> step w w' -> reachable w'.

End ModelLoader.
End model_loader.

(** ** [app/schemas.py] *)

Module schemas.

(** One entry of a pydantic [ValidationError]. *)
Inductive error_type : Type :=
| greater_than
| greater_than_equal
| value_error (msg : string)
| frozen_instance
| no_such_attribute.

Definition line_error : Type := (string * error_type)%type.

Inductive validated (A : Type) : Type :=
| Valid (a : A)
| ValidationError (errors : list line_error).

Arguments Valid {A} a.
Arguments ValidationError {A} errors.

Section Schemas.
Context `{Scalar}.

(** The numeric constraints of [Field]: [gt=b] and [ge=b]. *)
Inductive bound : Type :=
| Gt (b : num)
| Ge (b : num).

Definition satisfies (c : bound) (v : num) : bool :=
  match c with
  | Gt b => lt b v
  | Ge b => le b v
  end.

Definition bound_error (c : bound) : error_type :=
  match c with
  | Gt _ => greater_than
  | Ge _ => greater_than_equal
  end.

(** What pydantic has while it validates a model: [info.data], the
    fields validated so far, and the errors collected so far. *)
Record validation_state : Type := {
  info_data : gmap string num;
  errors : list line_error
}.

Definition initial_state : validation_state :=
  {| info_data := ∅; errors := [] |}.

(** Validation of one field, in declaration order: the [Field]
    constraint first, then the [field_validator] (mode "after"), which
    sees [info.data].  A field that fails is left out of [info.data] and
    its error is collected; the other fields are still validated. *)
Definition validate_field (name : string) (c : bound)
    (after : option (num -> gmap string num -> result num))
    (v : num) (st : validation_state) : option num * validation_state :=
  if satisfies c v then
    match after with
    | None =>
        (Some v, {| info_data := <[name:=v]> (info_data st); errors := errors st |})
    | Some f =>
        match f v (info_data st) with
        | Return v' =>
            (Some v', {| info_data := <[name:=v']> (info_data st);
                         errors := errors st |})
        | Raise e =>
            (None, {| info_data := info_data st;
                      errors := errors st ++ [(name, value_error (str e))] |})
        end
    end
  else
    (None, {| info_data := info_data st;
              errors := errors st ++ [(name, bound_error c)] |}).

Record CandleData : Type := {
  open : num;
  high : num;
  low : num;
  close : num;
  volume : num
}.

(** [@field_validator('high')] *)
Definition high_must_be_highest (v : num) (data : gmap string num) : result num :=
  match data !! "low" with
  | Some lo =>
      if lt v lo then Raise (mk_exn ValueError "high deve ser >= low" None)
      else Return v
  | None => Return v
  end.

(** [@field_validator('low')] *)
Definition low_must_be_lowest (v : num) (data : gmap string num) : result num :=
  match data !! "high" with
  | Some hi =>
      if lt hi v then Raise (mk_exn ValueError "low deve ser <= high" None)
      else Return v
  | None => Return v
  end.

(** [CandleData(open=o, high=h, low=l, close=c, volume=v)] *)
Definition CandleData_init (o h l c v : num) : validated CandleData :=
  let '(vo, st1) := validate_field "open" (Gt zero) None o initial_state in
  let '(vh, st2) := validate_field "high" (Gt zero) (Some high_must_be_highest) h st1 in
  let '(vl, st3) := validate_field "low" (Gt zero) (Some low_must_be_lowest) l st2 in
  let '(vc, st4) := validate_field "close" (Gt zero) None c st3 in
  let '(vv, st5) := validate_field "volume" (Ge zero) None v st4 in
  match vo, vh, vl, vc, vv with
  | Some o', Some h', Some l', Some c', Some v' =>
      Valid {| open := o'; high := h'; low := l'; close := c'; volume := v' |}
  | _, _, _, _, _ => ValidationError (errors st5)
  end.

(** The records the schema means to admit: the four prices strictly
    positive, the volume not negative, and not [low > high]. *)
Definition acceptable (o h l c v : num) : bool :=
  lt zero o && lt zero h && lt zero l && lt zero c && le zero v && negb (lt h l).

(** The two settings of pydantic's [ConfigDict] that govern attribute
    assignment on an instance. *)
Record ConfigDict : Type := {
  frozen : bool;
  validate_assignment : bool
}.

(** [CandleData] declares no [model_config]: pydantic's defaults apply. *)
Definition model_config : ConfigDict :=
  {| frozen := false; validate_assignment := false |}.

Definition assign (c : CandleData) (name : string) (v : num) : option CandleData :=
  if String.eqb name "open" then
    Some {| open := v; high := high c; low := low c; close := close c; volume := volume c |}
  else if String.eqb name "high" then
    Some {| open := open c; high := v; low := low c; close := close c; volume := volume c |}
  else if String.eqb name "low" then
    Some {| open := open c; high := high c; low := v; close := close c; volume := volume c |}
  else if String.eqb name "close" then
    Some {| open := open c; high := high c; low := low c; close := v; volume := volume c |}
  else if String.eqb name "volume" then
    Some {| open := open c; high := high c; low := low c; close := close c; volume := v |}
  else None.

(** [candle.<name> = v] on a constructed instance, as [BaseModel.__setattr__]
    does it under [model_config]. *)
Definition setattr (c : CandleData) (name : string) (v : num) : validated CandleData :=
  if frozen model_config then ValidationError [(name, frozen_instance)]
  else
    match assign c name v with
    | None => ValidationError [(name, no_such_attribute)]
    | Some c' =>
        if validate_assignment model_config
        then CandleData_init (open c') (high c') (low c') (close c') (volume c')
        else Valid c'
    end.

(** [PredictionResponse]; the [timestamp] field, filled from the wall
    clock by its default factory, is left out. *)
Record PredictionResponse : Type := {
  prediction : num;
  model_version : string;
  confidence : option num
}.

(** [HealthResponse], without its [timestamp]. *)
Record HealthResponse : Type := {
  status : string;
  model_loaded : bool;
  scaler_loaded : bool
}.

End Schemas.

End schemas.

(** ** The numpy operations the pipeline uses *)

Module np.
Section Numpy.
Context `{Scalar}.

Definition rbind {A B : Type} (r : result A) (k : A -> result B) : result B :=
  match r with
  | Return a => k a
  | Raise e => Raise e
  end.

(** [np.array(rows, dtype=np.float32)] *)
Definition array_float32 (rows : list (list num)) : matrix :=
  map (map float32) rows.

(** The Python slice [l[start:]]: a negative [start] counts from the
    end, and the bound is clipped to the sequence. *)
Definition slice_from {A : Type} (start : Z) (l : list A) : list A :=
  let n := Z.of_nat (length l) in
  let i := if start <? 0 then Z.max (n + start) 0 else Z.min start n in
  drop (Z.to_nat i) l.

(** [a.size] *)
Definition size (m : matrix) : nat := length (concat m).

(** [count] rows of [n] items each, cut from a flat buffer. *)
Fixpoint rows_of (n count : nat) (flat : list num) : matrix :=
  match count with
  | O => []
  | S c => take n flat :: rows_of n c (drop n flat)
  end.

Definition reshape_error (sz : nat) (d1 : Z) (d2 : nat) : exn :=
  mk_exn ValueError
    ("cannot reshape array of size " ++ str_of_int (Z.of_nat sz) ++
     " into shape (1," ++ str_of_int d1 ++ "," ++ str_of_int (Z.of_nat d2) ++ ")")
    None.

(** [a.reshape(1, d1, d2)]: the sizes must agree; [d1 = -1] is inferred;
    any other negative dimension is refused. *)
Definition reshape_1 (a : matrix) (d1 : Z) (d2 : nat) : result (list matrix) :=
  let flat := concat a in
  let sz := length flat in
  if d1 <? -1 then
    Raise (mk_exn ValueError "negative dimensions not allowed" None)
  else if d1 =? -1 then
    match d2 with
    | O => Raise (reshape_error sz d1 d2)
    | S _ =>
        if (sz mod d2 =? 0)%nat
        then Return [rows_of d2 (sz / d2)%nat flat]
        else Raise (reshape_error sz d1 d2)
    end
  else if Z.of_nat sz =? d1 * Z.of_nat d2
       then Return [rows_of d2 (Z.to_nat d1) flat]
       else Raise (reshape_error sz d1 d2).

(** [a.min()] and [a.max()] exist only for a non-empty array. *)
Definition check_min_max (a : matrix) : result unit :=
  match concat a with
  | [] =>
      Raise (mk_exn ValueError
               "zero-size array to reduction operation minimum which has no identity"
               None)
  | _ :: _ => Return tt
  end.

(** [np.zeros((1, n))] *)
Definition zeros_1 (n : nat) : matrix := [replicate n zero].

Definition index_error (i : nat) (axis : nat) (sz : nat) : exn :=
  mk_exn IndexError
    ("index " ++ str_of_int (Z.of_nat i) ++ " is out of bounds for axis " ++
     str_of_int (Z.of_nat axis) ++ " with size " ++ str_of_int (Z.of_nat sz))
    None.

(** [a[i, j]] *)
Definition getitem2 (a : matrix) (i j : nat) : result num :=
  match a !! i with
  | None => Raise (index_error i 0 (length a))
  | Some row =>
      match row !! j with
      | None => Raise (index_error j 1 (length row))
      | Some x => Return x
      end
  end.

(** [a[i, j] = x] *)
Definition setitem2 (a : matrix) (i j : nat) (x : num) : result matrix :=
  match a !! i with
  | None => Raise (index_error i 0 (length a))
  | Some row =>
      if (j <? length row)%nat
      then Return (<[i := <[j := x]> row]> a)
      else Raise (index_error j 1 (length row))
  end.

(** [a.ndim] *)
Fixpoint ndim (a : ndarray) : nat :=
  match a with
  | Item _ => 0
  | Array [] => 1
  | Array (x :: _) => S (ndim x)
  end.

(** [a[0]] *)
Definition getitem0 (a : ndarray) : result ndarray :=
  match a with
  | Item _ => Raise (mk_exn IndexError "invalid index to scalar variable." None)
  | Array [] => Raise (index_error 0 0 0)
  | Array (x :: _) => Return x
  end.

(** [float(a)]: a scalar, or an array holding exactly one item. *)
Fixpoint to_float (a : ndarray) : result num :=
  match a with
  | Item x => Return x
  | Array [y] => to_float y
  | Array _ =>
      Raise (mk_exn TypeError
               "only length-1 arrays can be converted to Python scalars" None)
  end.

End Numpy.
End np.

(** ** [app/monitoring.py] *)

Module monitoring.
Section Monitoring.
Context `{Scalar}.

(** The [track_time] decorator: it logs around the call and re-raises
    what the call raises. *)
Definition track_time {A : Type} (operation_name : string) (func : py A) : py A :=
  fun w =>
    match func w with
    | (Return r, w') => (Return r, w')
    | (Raise e, w') => (Raise e, w')
    end.

(** [metrics.increment_errors()] *)
Definition increment_errors : py unit :=
  modify (fun w => set_total_errors (S (total_errors w)) w).

(** [log_error(error, context)]: one structured log line and the error
    counter. *)
Definition log_error (error : exn) (context : string) : py unit :=
  increment_errors.

End Monitoring.
End monitoring.

(** ** [app/inference.py] *)

Module inference.
Import schemas np monitoring model_loader.
Section Inference.
Context `{Scalar}.
Variable settings : Settings.

Local Open Scope py_scope.

Record InferencePipeline : Type := {
  lookback : Z;
  features : list string;
  n_features : nat
}.

(** [InferencePipeline.__init__] *)
Definition InferencePipeline_init : InferencePipeline :=
  {| lookback := LOOKBACK settings;
     features := FEATURES settings;
     n_features := length (FEATURES settings) |}.

Section Methods.
Variable self : InferencePipeline.

Definition insufficient_data (received : nat) : exn :=
  mk_exn ValueError
    ("Dados insuficientes. Esperado >= " ++ str_of_int (lookback self) ++
     ", recebido: " ++ str_of_int (Z.of_nat received))
    None.

Definition _validate_input (data : list CandleData) : py unit :=
  if Z.of_nat (length data) <? lookback self
  then raise (insufficient_data (length data))
  else ret tt.

Definition _prepare_features (data : list CandleData) : py matrix :=
  let features_list :=
    map (fun candle =>
           [open candle; high candle; low candle; close candle; volume candle])
        data in
  ret (array_float32 features_list).

Definition _get_last_sequence (X : matrix) : py matrix :=
  ret (slice_from (- lookback self) X).

Definition _scale_features (X : matrix) : py matrix :=
  track_time "scale_features"
    (scaler <- get_scaler settings ;;
     X_scaled <- lift (transform scaler X) ;;
     (* the log line formats [X_scaled.min()] and [X_scaled.max()] *)
     lift (check_min_max X_scaled) ;;
     ret X_scaled).

Definition _reshape_for_lstm (X : matrix) : py (list matrix) :=
  lift (reshape_1 X (lookback self) (n_features self)).

Definition _predict (X : list matrix) : py num :=
  track_time "model_prediction"
    (model <- get_model settings ;;
     prediction <- lift (model_predict model X) ;;
     pred_value <- lift
       (if (1 <? ndim prediction)%nat
        then rbind (rbind (getitem0 prediction) getitem0) to_float
        else rbind (getitem0 prediction) to_float) ;;
     ret pred_value).

Definition _denormalize_prediction (pred_normalized : num) : py num :=
  scaler <- get_scaler settings ;;
  dummy_array <- lift (setitem2 (zeros_1 (n_features self)) 0 3 pred_normalized) ;;
  denormalized <- lift (inverse_transform scaler dummy_array) ;;
  pred_real <- lift (getitem2 denormalized 0 3) ;;
  ret pred_real.

(** [features.index(name)], if [name] is listed. *)
Fixpoint index_of (name : string) (l : list string) : option nat :=
  match l with
  | [] => None
  | x :: rest =>
      if String.eqb x name then Some O
      else option_map S (index_of name rest)
  end.

(** The inversion of one normalized value through a zero-filled row of
    [width] columns with the value in column [col]. *)
Definition denormalize_at (width col : nat) (scaler : Scaler)
    (pred_normalized : num) : py num :=
  dummy_array <- lift (setitem2 (zeros_1 width) 0 col pred_normalized) ;;
  denormalized <- lift (inverse_transform scaler dummy_array) ;;
  pred_real <- lift (getitem2 denormalized 0 col) ;;
  ret pred_real.

(** The denormalization stage in the words of the specification, for
    comparison with [_denormalize_prediction]: the row is as wide as the
    normalizer expects, and the column is the position of the "close"
    feature in the configured feature order. *)
Definition denormalize_as_specified (pred_normalized : num) : py num :=
  scaler <- get_scaler settings ;;
  match n_features_in_ scaler, index_of "close" (features self) with
  | Some width, Some col => denormalize_at width col scaler pred_normalized
  | _, _ => raise (mk_exn ValueError "the target feature has no column" None)
  end.

(** The [try] block of [predict]. *)
Definition predict_try (data : list CandleData) : py PredictionResponse :=
  _validate_input data ;;
  X <- _prepare_features data ;;
  X_sequence <- _get_last_sequence X ;;
  X_scaled <- _scale_features X_sequence ;;
  X_reshaped <- _reshape_for_lstm X_scaled ;;
  pred_normalized <- _predict X_reshaped ;;
  pred_real <- _denormalize_prediction pred_normalized ;;
  ret {| prediction := pred_real;
         model_version := MODEL_VERSION settings;
         confidence := None |}.

Definition pipeline_error (e : exn) : exn :=
  mk_exn RuntimeError ("Erro na predição: " ++ str e) (Some e).

(** The two [except] clauses of [predict], tried in order. *)
Definition predict_except (e : exn) : py PredictionResponse :=
  if is_ValueError e then
    log_error e "validation" ;;
    raise e
  else
    log_error e "inference_pipeline" ;;
    raise (pipeline_error e).

Definition predict (data : list CandleData) : py PredictionResponse :=
  track_time "full_inference_pipeline"
    (try_except (predict_try data) predict_except).

End Methods.

(** The module-level instance [inference_pipeline]. *)
Definition inference_pipeline : InferencePipeline := InferencePipeline_init.

End Inference.
End inference.

(** ** [api/index.py] *)

Module api.
Import schemas np monitoring model_loader inference.
Section Api.
Context `{Scalar}.
Variable settings : Settings.

(** [str(e)] of an [HTTPException] with the given status code and
    detail, as Starlette defines it. *)
Variable http_str : nat -> string -> string.

Local Open Scope py_scope.

(** The counters of [RequestMetrics.metrics] beside [total_errors],
    which the world holds. *)
Record counters : Type := {
  total_requests : nat;
  total_predictions : nat;
  total_cold_starts : nat
}.

Definition no_counts : counters :=
  {| total_requests := 0; total_predictions := 0; total_cold_starts := 0 |}.

(** What a handler answers: a body, or an [HTTPException]. *)
Inductive response (A : Type) : Type :=
| Ok (body : A)
| HTTPException (status_code : nat) (detail : string).

Arguments Ok {A} body.
Arguments HTTPException {A} status_code detail.

(** What the [try] block of a handler can raise. *)
Inductive raised : Type :=
| PyExn (e : exn)
| Http (status_code : nat) (detail : string).

(** [log_prediction_request(..., success)] *)
Definition log_prediction_request (success : bool) (st : world * counters)
  : world * counters :=
  let (w, c) := st in
  let (w1, c1) :=
    if success
    then (w, {| total_requests := total_requests c;
                total_predictions := S (total_predictions c);
                total_cold_starts := total_cold_starts c |})
    else (set_total_errors (S (total_errors w)) w, c) in
  (w1, {| total_requests := S (total_requests c1);
          total_predictions := total_predictions c1;
          total_cold_starts := total_cold_starts c1 |}).

(** [log_model_loading(model_loaded, scaler_loaded, duration)] *)
Definition log_model_loading (model_loaded scaler_loaded : bool) (c : counters)
  : counters :=
  if model_loaded && scaler_loaded
  then {| total_requests := total_requests c;
          total_predictions := total_predictions c;
          total_cold_starts := S (total_cold_starts c) |}
  else c.

(** The part of [lifespan] that runs before the application serves:
    the eager load, whose failure is logged and swallowed. *)
Definition lifespan_startup (st : world * counters) : world * counters :=
  let (w, c) := st in
  match load_model_and_scaler settings w with
  | (Return _, w1) => (w1, log_model_loading true true c)
  | (Raise _, w1) => (w1, c)
  end.

(** The [try] block of the [/predict] handler. *)
Definition predict_handler_try (data : list CandleData) (st : world * counters)
  : (PredictionResponse + raised) * (world * counters) :=
  let (w, c) := st in
  let lazy : option raised * world :=
    if negb (is_model_loaded w) || negb (is_scaler_loaded w) then
      match load_model_and_scaler settings w with
      | (Return _, w1) => (None, w1)
      | (Raise e, w1) =>
          (Some (Http 503 "Modelo não disponível. Tente novamente em alguns segundos."),
           snd (log_error e "lazy_model_loading" w1))
      end
    else (None, w) in
  match lazy with
  | (Some r, w1) => (inr r, (w1, c))
  | (None, w1) =>
      match predict settings (inference_pipeline settings) data w1 with
      | (Return prediction, w2) =>
          (inl prediction, log_prediction_request true (w2, c))
      | (Raise e, w2) => (inr (PyExn e), (w2, c))
      end
  end.

(** The [/predict] handler with its two [except] clauses. *)
Definition predict_handler (data : list CandleData) (st : world * counters)
  : response PredictionResponse * (world * counters) :=
  match predict_handler_try data st with
  | (inl prediction, st1) => (Ok prediction, st1)
  | (inr (PyExn e), st1) =>
      if is_ValueError e then
        (HTTPException 400 (str e), log_prediction_request false st1)
      else
        let (w2, c2) := log_prediction_request false st1 in
        (HTTPException 500 ("Erro interno ao processar predição: " ++ str e),
         (snd (log_error e "/predict" w2), c2))
  | (inr (Http code detail), st1) =>
      let (w2, c2) := log_prediction_request false st1 in
      (HTTPException 500
         ("Erro interno ao processar predição: " ++ http_str code detail),
       (snd (increment_errors w2), c2))
  end.

(** The [/health] handler. *)
Definition health : py HealthResponse :=
  model_loaded <- gets is_model_loaded ;;
  scaler_loaded <- gets is_scaler_loaded ;;
  let status_str :=
    if model_loaded && scaler_loaded then "healthy"
    else if negb model_loaded && negb scaler_loaded then "unhealthy"
    else "degraded" in
  ret {| status := status_str;
         model_loaded := model_loaded;
         scaler_loaded := scaler_loaded |}.

End Api.

Arguments Ok {A} body.
Arguments HTTPException {A} status_code detail.

End api.

(** ** The process as a whole *)

Module process.
Import schemas np monitoring model_loader inference api.
Section Process.
Context `{Scalar}.
Variable settings : Settings.
Variable http_str : nat -> string -> string.

(** What can happen to the world of a running process: a call of one
    of the operations above, or the environment replacing a file. *)
Inductive operation : Type :=
| call_get_model
| call_get_scaler
| call_load_model_and_scaler
| call_clear_cache
| call_get_model_info
| call_validate
| call_predict (data : list CandleData)
| call_health
| run_lifespan_startup
| handle_predict (data : list CandleData)
| replace_model_file (f : file Model)
| replace_scaler_file (f : file Scaler).

Definition perform (w : world) (o : operation) : world :=
  match o with
  | call_get_model => snd (get_model settings w)
  | call_get_scaler => snd (get_scaler settings w)
  | call_load_model_and_scaler => snd (load_model_and_scaler settings w)
  | call_clear_cache => snd (clear_cache w)
  | call_get_model_info => snd (get_model_info settings w)
  | call_validate => snd (validate settings w)
  | call_predict data => snd (predict settings (inference_pipeline settings) data w)
  | call_health => snd (health w)
  | run_lifespan_startup => fst (lifespan_startup settings (w, no_counts))
  | handle_predict data =>
      fst (snd (predict_handler settings http_str data (w, no_counts)))
  | replace_model_file f => put_model_file f w
  | replace_scaler_file f => put_scaler_file f w
  end.

(** The world after a fresh process went through [ops], in order. *)
Definition after (tf : result unit) (mf : file Model) (sf : file Scaler)
    (ops : list operation) : world :=
  fold_left perform ops (fresh tf mf sf).

(** Both artifacts are cached. *)
Definition warm (w : world) : bool := is_model_loaded w && is_scaler_loaded w.

(** [w'] differs from [w] at most in the accessor calls recorded and in
    the error counter: same cache, same files, same storage accesses. *)
Definition undisturbed (w w' : world) : Prop :=
  _model_cache w' = _model_cache w /\
  _scaler_cache w' = _scaler_cache w /\
  _load_attempted w' = _load_attempted w /\
  model_file w' = model_file w /\
  scaler_file w' = scaler_file w /\
  tensorflow w' = tensorflow w /\
  forall a, storage_accesses a w' = storage_accesses a w.

(** Three relations between a world and a later one: the cache has not
    become latched; a warm cache was left undisturbed; the error counter
    stands where it stood. *)
Definition unlatched_kept (w w' : world) : Prop :=
  latched w = false -> latched w' = false.

Definition quiet_when_warm (w w' : world) : Prop :=
  warm w = true -> undisturbed w w'.

Definition same_error_count (w w' : world) : Prop :=
  total_errors w' = total_errors w.

(** A computation [c] takes every world to one related to it by [R]. *)
Definition respects (R : world -> world -> Prop) {A : Type} (c : py A) : Prop :=
  forall w, R w (snd (c w)).

End Process.
End process.

(** ** A concrete instance, for running the embedding *)

Module sample.
Import schemas np monitoring model_loader inference.

(** Integers standing for floats; [float32] keeps them as they are. *)
#[export] Instance Z_scalar : Scalar :=
  {| num := Z; zero := 0; lt := Z.ltb; le := Z.leb; float32 := fun x => x |}.

Definition feature_count_error (got expected : nat) : exn :=
  mk_exn ValueError
    ("X has " ++ str_of_int (Z.of_nat got) ++ " features, but MinMaxScaler is expecting "
     ++ str_of_int (Z.of_nat expected) ++ " features as input.")
    None.

Definition check_width (cols : list (Z * Z)) (X : list (list Z)) : option nat :=
  match List.filter (fun row => negb (length row =? length cols)%nat) X with
  | [] => None
  | row :: _ => Some (length row)
  end.

(** A per-column scaler in the manner of scikit-learn's [MinMaxScaler]:
    column [j] has an offset and a scale; a matrix of the wrong width is
    refused with a [ValueError]. *)
Definition column_scaler (cols : list (Z * Z)) : Scaler := {|
  n_features_in_ := Some (length cols);
  transform X :=
    match check_width cols X with
    | Some got => Raise (feature_count_error got (length cols))
    | None =>
        Return (map (fun row => zip_with (fun x c => (x - fst c) / snd c) row cols) X)
    end;
  inverse_transform X :=
    match check_width cols X with
    | Some got => Raise (feature_count_error got (length cols))
    | None =>
        Return (map (fun row => zip_with (fun x c => x * snd c + fst c) row cols) X)
    end
|}.

Definition scaler5 : Scaler :=
  column_scaler [(100, 10); (200, 20); (300, 30); (5, 2); (0, 1000)].

Definition scaler4 : Scaler :=
  column_scaler [(100, 10); (200, 20); (300, 30); (5, 2)].

(** A model answering, as a (1, 1) array, the sum of all it is given. *)
Definition sum_model : Model := {|
  input_shape := Return "(None, 2, 5)";
  output_shape := Return "(None, 1)";
  model_predict X :=
    Return (Array [Array [Item (fold_right Z.add 0 (concat (concat X)))]])
|}.

(** The default settings with a window of two records. *)
Definition settings2 : Settings := {|
  MODEL_VERSION := "1.0";
  LOOKBACK := 2;
  FEATURES := ["open"; "high"; "low"; "close"; "volume"];
  TARGET := "close";
  MODEL_PATH := "/app/artifacts/amzn_lstm_model.keras";
  SCALER_PATH := "/app/artifacts/scaler.save"
|}.

(** The same with the target listed first. *)
Definition settings_close_first : Settings := {|
  MODEL_VERSION := "1.0";
  LOOKBACK := 2;
  FEATURES := ["close"; "open"; "high"; "low"; "volume"];
  TARGET := "close";
  MODEL_PATH := "/app/artifacts/amzn_lstm_model.keras";
  SCALER_PATH := "/app/artifacts/scaler.save"
|}.

Definition candle (o h l c v : Z) : CandleData :=
  {| open := o; high := h; low := l; close := c; volume := v |}.

Definition candle1 : CandleData := candle 150 152 149 151 1000.
Definition candle2 : CandleData := candle 151 153 150 152 2000.
Definition candle3 : CandleData := candle 152 154 151 153 3000.

(** A process just started, TensorFlow importable, both files in place. *)
Definition world_ok : world := fresh (Return tt) (Stored sum_model) (Stored scaler5).

(** The same with no model file. *)
Definition world_no_model : world := fresh (Return tt) Missing (Stored scaler5).

(** The same with no scaler file. *)
Definition world_no_scaler : world := fresh (Return tt) (Stored sum_model) Missing.

(** The same with neither file. *)
Definition world_empty : world := fresh (Return tt) Missing Missing.

Definition corrupt_file : exn :=
  mk_exn (Derived "OSError" Exception) "Unable to synchronously open file" None.

(** The same with a model file that is there and does not load. *)
Definition world_bad_model : world :=
  fresh (Return tt) (Unreadable corrupt_file) (Stored scaler5).

(** The same with a scaler fitted on four columns only. *)
Definition world_narrow_scaler : world :=
  fresh (Return tt) (Stored sum_model) (Stored scaler4).

(** The pipeline objects of the two configurations. *)
Definition pipeline2 : InferencePipeline := inference_pipeline settings2.

Definition pipeline_close_first : InferencePipeline :=
  inference_pipeline settings_close_first.

(** What [get_model] raises when the file does not load. *)
Definition load_failure : exn :=
  mk_exn RuntimeError
    ("Falha ao carregar modelo: " ++ str corrupt_file) (Some corrupt_file).

(** What [get_model] raises when there is no file. *)
Definition model_not_found : exn :=
  mk_exn RuntimeError
    ("Falha ao carregar modelo: Arquivo do modelo não encontrado: " ++
     MODEL_PATH settings2)
    (Some (mk_exn FileNotFoundError
             ("Arquivo do modelo não encontrado: " ++ MODEL_PATH settings2) None)).

(** What [get_scaler] raises when there is no file. *)
Definition scaler_not_found : exn :=
  mk_exn RuntimeError
    ("Falha ao carregar scaler: Arquivo do scaler não encontrado: " ++
     SCALER_PATH settings2)
    (Some (mk_exn FileNotFoundError
             ("Arquivo do scaler não encontrado: " ++ SCALER_PATH settings2) None)).

(** [str(e)] of an [HTTPException] as recent Starlette has it. *)
Definition starlette_str (status_code : nat) (detail : string) : string :=
  str_of_int (Z.of_nat status_code) ++ ": " ++ detail.

(** The default settings with the window length set to zero. *)
Definition settings0 : Settings := {|
  MODEL_VERSION := "1.0";
  LOOKBACK := 0;
  FEATURES := ["open"; "high"; "low"; "close"; "volume"];
  TARGET := "close";
  MODEL_PATH := "/app/artifacts/amzn_lstm_model.keras";
  SCALER_PATH := "/app/artifacts/scaler.save"
|}.

Definition pipeline0 : InferencePipeline := inference_pipeline settings0.

(** A model whose output is an empty array. *)
Definition empty_model : Model := {|
  input_shape := Return "(None, 2, 5)";
  output_shape := Return "(None, 0)";
  model_predict X := Return (Array [])
|}.

Definition world_empty_model : world :=
  fresh (Return tt) (Stored empty_model) (Stored scaler5).

(** Two rows of five columns, and three. *)
Definition matrix2 : matrix := [[1; 2; 3; 4; 5]; [6; 7; 8; 9; 10]].

Definition matrix3 : matrix := [[0; 0; 0; 0; 0]; [1; 2; 3; 4; 5]; [6; 7; 8; 9; 10]].

(** The process after a warm-up that succeeded. *)
Definition world_warm : world := snd (load_model_and_scaler settings2 world_ok).

End sample.

(** * Properties of the artifact cache *)

Module model_loader_facts.
Import model_loader.
Section Facts.
Context `{Scalar}.
Variable settings : Settings.

Notation get_model := (get_model settings).
Notation get_scaler := (get_scaler settings).
Notation load_model_and_scaler := (load_model_and_scaler settings).

(** Unfolds one accessor call down to the case analysis on the world. *)
Ltac run :=
  unfold model_loader.get_model, model_loader.get_scaler,
    model_loader.load_model_and_scaler, clear_cache,
    get_model_try, get_model_except, get_scaler_try, get_scaler_except,
    import_tensorflow, model_path_exists, load_model, scaler_path_exists,
    joblib_load, try_except, bind, modify, gets, ret, raise, lift,
    observe, set_model_cache, set_scaler_cache, set_load_attempted in *;
  simpl in *.

(** Names the wrapped exception from the [__cause__] of the wrapper. *)
Ltac name_cause :=
  match goal with
  | |- exists e0, mk_exn _ _ (Some ?c) = _ => exists c; reflexivity
  end.

(** *** Observations are only ever appended *)

Lemma storage_accesses_observe (a : artifact) (e : event) (w : world) :
  storage_accesses a (observe e w) =
  (storage_accesses a w ++ (if is_storage_access a e then [e] else []))%list.
Proof.
  unfold storage_accesses. simpl. rewrite List.filter_app. simpl.
  destruct (is_storage_access a e); reflexivity.
Qed.

Lemma reads_observe (a : artifact) (e : event) (w : world) :
  reads a (observe e w) = (reads a w + (if is_read a e then 1 else 0))%nat.
Proof.
  unfold reads. simpl. rewrite List.filter_app, length_app. simpl.
  destruct (is_read a e); reflexivity.
Qed.

(** *** A cached artifact is returned without touching storage *)

Lemma get_model_cached (w : world) (m : Model) :
  _model_cache w = Some m ->
  get_model w = (Return m, observe (Accessor ModelArtifact) w).
Proof. destruct w; simpl; intros Hc. run. rewrite Hc. reflexivity. Qed.

Lemma get_scaler_cached (w : world) (s : Scaler) :
  _scaler_cache w = Some s ->
  get_scaler w = (Return s, observe (Accessor ScalerArtifact) w).
Proof. destruct w; simpl; intros Hc. run. rewrite Hc. reflexivity. Qed.

(** *** What a call leaves behind *)

Lemma get_model_Return (w w' : world) (m : Model) :
  get_model w = (Return m, w') ->
  _model_cache w' = Some m /\
  _scaler_cache w' = _scaler_cache w /\
  scaler_file w' = scaler_file w /\
  (_model_cache w = None -> reads ModelArtifact w' = S (reads ModelArtifact w)).
Proof.
  destruct w as [mc sc la te tf mf sf tr]. intros Hrun. run.
  destruct mc as [m0|].
  - inversion Hrun; subst; simpl. repeat split; congruence.
  - destruct la; simpl in Hrun; [discriminate|].
    destruct tf as [[]|e0]; simpl in Hrun; [|discriminate].
    destruct mf as [|e1|m1]; simpl in Hrun; try discriminate.
    destruct (input_shape m1) as [shape|e2]; simpl in Hrun; [|discriminate].
    inversion Hrun; subst; simpl. repeat split.
    intros _. unfold reads. simpl.
    rewrite !List.filter_app, !length_app. simpl. lia.
Qed.

Lemma get_model_Raise (w w' : world) (e : exn) :
  get_model w = (Raise e, w') ->
  latched w = false ->
  _model_cache w' = None /\
  _load_attempted w' = false /\
  _scaler_cache w' = _scaler_cache w /\
  exists e0, e = mk_exn RuntimeError ("Falha ao carregar modelo: " ++ str e0) (Some e0).
Proof.
  destruct w as [mc sc la te tf mf sf tr]. intros Hrun Hl.
  unfold latched, is_model_loaded in Hl. run.
  destruct mc as [m0|]; [discriminate|].
  destruct la; simpl in Hrun, Hl; [discriminate|].
  destruct tf as [[]|e0]; simpl in Hrun.
  - destruct mf as [|e1|m1]; simpl in Hrun.
    + inversion Hrun; subst; simpl. repeat split; name_cause.
    + inversion Hrun; subst; simpl. repeat split; name_cause.
    + destruct (input_shape m1) as [shape|e2]; simpl in Hrun; [discriminate|].
      inversion Hrun; subst; simpl. repeat split; name_cause.
  - inversion Hrun; subst; simpl. repeat split; name_cause.
Qed.

Lemma get_scaler_Return (w w' : world) (s : Scaler) :
  get_scaler w = (Return s, w') ->
  _scaler_cache w' = Some s /\
  _model_cache w' = _model_cache w /\
  _load_attempted w' = _load_attempted w.
Proof.
  destruct w as [mc sc la te tf mf sf tr]. intros Hrun. run.
  destruct sc as [s0|].
  - inversion Hrun; subst; simpl. repeat split; congruence.
  - destruct sf as [|e1|s1]; simpl in Hrun; try discriminate.
    inversion Hrun; subst; simpl. repeat split.
Qed.

Lemma get_scaler_Raise (w w' : world) (e : exn) :
  get_scaler w = (Raise e, w') ->
  _scaler_cache w = None /\
  _scaler_cache w' = None /\
  _model_cache w' = _model_cache w /\
  _load_attempted w' = _load_attempted w /\
  scaler_file w' = scaler_file w /\
  trace w' = (trace w ++ Accessor ScalerArtifact :: PathExists ScalerArtifact ::
              match scaler_file w with
              | Missing => []
              | _ => [ReadFile ScalerArtifact]
              end)%list.
Proof.
  destruct w as [mc sc la te tf mf sf tr]. intros Hrun. run.
  destruct sc as [s0|]; [discriminate|].
  destruct sf as [|e1|s1]; simpl in Hrun; try discriminate;
    inversion Hrun; subst; simpl; rewrite <- ?app_assoc; repeat split.
Qed.

(** *** Repeated calls on a loaded cache *)

Lemma repeat_get_model_cached (N : nat) (w : world) (m : Model) :
  _model_cache w = Some m ->
  fst (repeat_call get_model N w) = replicate N (Return m) /\
  _model_cache (snd (repeat_call get_model N w)) = Some m /\
  storage_accesses ModelArtifact (snd (repeat_call get_model N w)) =
    storage_accesses ModelArtifact w /\
  reads ModelArtifact (snd (repeat_call get_model N w)) = reads ModelArtifact w.
Proof.
  revert w. induction N as [|N IH]; intros w Hc; simpl.
  - repeat split. exact Hc.
  - rewrite (get_model_cached w m Hc).
    pose proof (IH (observe (Accessor ModelArtifact) w) Hc) as (Hr & Hm & Hs & Hn).
    destruct (repeat_call get_model N (observe (Accessor ModelArtifact) w))
      as [rs wN] eqn:Hrep.
    simpl in *. subst rs. repeat split; [exact Hm | |].
    + rewrite Hs, storage_accesses_observe. simpl. apply app_nil_r.
    + rewrite Hn, reads_observe. simpl. lia.
Qed.

(** *** The latched state is never entered *)

Lemma fresh_not_latched tf mf sf : latched (fresh tf mf sf) = false.
Proof. reflexivity. Qed.

Lemma get_model_not_latched (w : world) :
  latched w = false -> latched (snd (get_model w)) = false.
Proof.
  destruct w as [mc sc la te tf mf sf tr]. unfold latched, is_model_loaded.
  run. destruct mc as [m0|]; simpl; [intros _; apply andb_false_r|].
  destruct la; simpl; [discriminate|]. intros _.
  destruct tf as [[]|e0]; simpl; [|reflexivity].
  destruct mf as [|e1|m1]; simpl; try reflexivity.
  destruct (input_shape m1); reflexivity.
Qed.

Lemma get_scaler_not_latched (w : world) :
  latched w = false -> latched (snd (get_scaler w)) = false.
Proof.
  destruct w as [mc sc la te tf mf sf tr]. unfold latched, is_model_loaded.
  run. destruct sc as [s0|]; simpl; [tauto|].
  destruct sf as [|e1|s1]; simpl; tauto.
Qed.

Lemma clear_cache_not_latched (w : world) : latched (snd (clear_cache w)) = false.
Proof. reflexivity. Qed.

Lemma reachable_not_latched (w : world) :
  reachable settings w -> latched w = false.
Proof.
  induction 1 as [tf mf sf | w w' _ IH Hstep].
  - apply fresh_not_latched.
  - destruct Hstep.
    + apply get_model_not_latched, IH.
    + apply get_scaler_not_latched, IH.
    + apply clear_cache_not_latched.
    + exact IH.
    + exact IH.
    + exact IH.
Qed.

(** *** The claims about the cache *)

(** C6.  Once [get_model] has succeeded with handle [m], each of any
    number [N] of further calls returns that same [m] and none of them
    touches the model's storage; when the successful call was the one
    that loaded the model, the file has been read exactly once more than
    before it, however many calls follow. *)
Theorem get_model_idempotent (w w1 : world) (m : Model) (N : nat) :
  get_model w = (Return m, w1) ->
  fst (repeat_call get_model N w1) = replicate N (Return m) /\
  storage_accesses ModelArtifact (snd (repeat_call get_model N w1)) =
    storage_accesses ModelArtifact w1 /\
  (_model_cache w = None ->
   reads ModelArtifact (snd (repeat_call get_model N w1)) =
     S (reads ModelArtifact w)).
Proof.
  intros Hrun.
  destruct (get_model_Return w w1 m Hrun) as (Hc & _ & _ & Hreads).
  destruct (repeat_get_model_cached N w1 m Hc) as (Hr & _ & Hs & Hn).
  repeat split; [exact Hr | exact Hs |].
  intros Hnone. rewrite Hn. apply Hreads, Hnone.
Qed.

(** C7.  A failed [get_scaler] leaves nothing behind that would stop a
    retry: the next call goes to storage again, and as soon as the file
    loads, that call succeeds and caches the scaler, with no reset in
    between. *)
Theorem get_scaler_failure_not_latched (w w1 : world) (e : exn) :
  get_scaler w = (Raise e, w1) ->
  (exists more,
     trace (snd (get_scaler w1)) =
       (trace w1 ++ Accessor ScalerArtifact :: PathExists ScalerArtifact :: more)%list) /\
  (forall s : Scaler,
     fst (get_scaler (put_scaler_file (Stored s) w1)) = Return s /\
     is_scaler_loaded (snd (get_scaler (put_scaler_file (Stored s) w1))) = true /\
     reads ScalerArtifact (snd (get_scaler (put_scaler_file (Stored s) w1))) =
       S (reads ScalerArtifact w1)).
Proof.
  intros Hrun.
  destruct (get_scaler_Raise w w1 e Hrun) as (_ & Hc & _).
  destruct w1 as [mc sc la te tf mf sf tr]. simpl in Hc. subst sc.
  split.
  - run. destruct sf as [|e1|s1]; simpl; rewrite <- ?app_assoc; simpl; eauto.
  - intros s. unfold is_scaler_loaded, reads. run. repeat split.
    rewrite !List.filter_app, !length_app. simpl. lia.
Qed.

(** C8, as the code has it.  [load_model_and_scaler] is [get_model]
    followed by [get_scaler]: when the model load raises, that exception
    is the outcome and the scaler is not asked for; when the model load
    succeeds, the outcome is that of [get_scaler].  The model's outcome
    never depends on the scaler's file or cache, and the scaler's
    outcome, when it is asked for, is the one [get_scaler] alone would
    have had. *)
Theorem load_model_and_scaler_sequential (w : world) :
  load_model_and_scaler w =
    match get_model w with
    | (Raise e, w1) => (Raise e, w1)
    | (Return m, w1) =>
        match get_scaler w1 with
        | (Raise e, w2) => (Raise e, w2)
        | (Return s, w2) => (Return (m, s), w2)
        end
    end /\
  (forall f c,
     fst (get_model (put_scaler_file f (set_scaler_cache c w))) = fst (get_model w)) /\
  (forall m w1, get_model w = (Return m, w1) -> fst (get_scaler w1) = fst (get_scaler w)).
Proof.
  split; [|split].
  - unfold model_loader.load_model_and_scaler, try_except, bind, ret, raise.
    destruct (get_model w) as [[m|e] w1]; [|reflexivity].
    destruct (get_scaler w1) as [[s|e] w2]; reflexivity.
  - intros f c. destruct w as [mc sc la te tf mf sf tr]. run.
    destruct mc as [m0|]; [reflexivity|].
    destruct la; simpl; [reflexivity|].
    destruct tf as [[]|e0]; simpl; [|reflexivity].
    destruct mf as [|e1|m1]; simpl; try reflexivity.
    destruct (input_shape m1); reflexivity.
  - intros m w1 Hrun.
    destruct (get_model_Return w w1 m Hrun) as (_ & Hsc & Hsf & _).
    destruct w as [mc sc la te tf mf sf tr], w1 as [mc1 sc1 la1 te1 tf1 mf1 sf1 tr1].
    simpl in Hsc, Hsf. subst sc1 sf1. run.
    destruct sc as [s0|]; [reflexivity|].
    destruct sf as [|e1|s1]; reflexivity.
Qed.

(** C10.  A load attempt that fails leaves the cache as it is in a
    fresh process: after a failing [get_model] no model is cached and
    the attempt flag is clear, after a failing [get_scaler] no scaler is
    cached; the other artifact's slot is untouched.  [latched w = false]
    holds in every state the process reaches ([reachable_not_latched]);
    it says the failing call did attempt a load. *)
Theorem failed_load_restores_unloaded_state (w : world) :
  latched w = false ->
  (forall e w', get_model w = (Raise e, w') ->
     _model_cache w' = None /\ _load_attempted w' = false /\
     is_model_loaded w' = false /\ _scaler_cache w' = _scaler_cache w) /\
  (forall e w', get_scaler w = (Raise e, w') ->
     _scaler_cache w' = None /\ is_scaler_loaded w' = false /\
     _model_cache w' = _model_cache w /\ _load_attempted w' = _load_attempted w).
Proof.
  intros Hl. split; intros e w' Hrun.
  - destruct (get_model_Raise w w' e Hrun Hl) as (Hc & Ha & Hs & _).
    unfold is_model_loaded. rewrite Hc. repeat split; assumption.
  - destruct (get_scaler_Raise w w' e Hrun) as (_ & Hc & Hm & Ha & _).
    unfold is_scaler_loaded. rewrite Hc. repeat split; assumption.
Qed.

(** From the unloaded state, with TensorFlow importable and a model
    file that loads, [get_model] returns the model and caches it. *)
Lemma get_model_loads (w : world) (m : Model) :
  _model_cache w = None -> _load_attempted w = false ->
  tensorflow w = Return tt -> model_file w = Stored m ->
  (exists shape, input_shape m = Return shape) ->
  fst (get_model w) = Return m /\ is_model_loaded (snd (get_model w)) = true.
Proof.
  destruct w as [mc sc la te tf mf sf tr]. simpl.
  intros -> -> -> -> [shape Hshape]. unfold is_model_loaded. run.
  rewrite Hshape. split; reflexivity.
Qed.

(** [clear_cache] followed by a load that succeeds gives a loaded cache,
    whatever the state before. *)
Lemma clear_cache_then_load (w : world) (m : Model) :
  tensorflow w = Return tt -> model_file w = Stored m ->
  (exists shape, input_shape m = Return shape) ->
  fst (get_model (snd (clear_cache w))) = Return m /\
  is_model_loaded (snd (get_model (snd (clear_cache w)))) = true.
Proof.
  intros Htf Hmf Hshape. apply get_model_loads; try reflexivity; assumption.
Qed.

End Facts.
End model_loader_facts.

(** * Properties of the prediction pipeline *)

Module inference_facts.
Import schemas np monitoring model_loader inference.
Section Facts.
Context `{Scalar}.
Variable settings : Settings.
Variable self : InferencePipeline.

Notation predict := (predict settings self).
Notation predict_try := (predict_try settings self).
Notation _denormalize_prediction := (_denormalize_prediction settings self).

(** The decorator changes nothing about what the call does. *)
Lemma track_time_transparent {A : Type} (name : string) (func : py A) (w : world) :
  track_time name func w = func w.
Proof. unfold track_time. destruct (func w) as [[r|e] w']; reflexivity. Qed.

(** *** The trailing window *)

Lemma slice_from_trailing {A : Type} (k : Z) (extra l : list A) :
  0 < k -> k <= Z.of_nat (length l) ->
  slice_from (- k) (extra ++ l) = slice_from (- k) l.
Proof.
  intros Hpos Hlen. unfold slice_from.
  destruct (Z.ltb_spec (- k) 0) as [_|]; [|lia].
  rewrite length_app, Nat2Z.inj_add.
  rewrite !Z.max_l by lia.
  replace (Z.to_nat (Z.of_nat (length extra) + Z.of_nat (length l) + - k))
    with (length extra + Z.to_nat (Z.of_nat (length l) + - k))%nat by lia.
  apply drop_app_add.
Qed.

Lemma slice_from_length {A : Type} (k : Z) (l : list A) :
  0 < k -> k <= Z.of_nat (length l) ->
  Z.of_nat (length (slice_from (- k) l)) = k.
Proof.
  intros Hpos Hlen. unfold slice_from.
  destruct (Z.ltb_spec (- k) 0) as [_|]; [|lia].
  rewrite length_drop, Z.max_l by lia. lia.
Qed.

Lemma _validate_input_ok (data : list CandleData) (w : world) :
  lookback self <= Z.of_nat (length data) ->
  _validate_input self data w = (Return tt, w).
Proof.
  intros Hlen. unfold _validate_input.
  destruct (Z.ltb_spec (Z.of_nat (length data)) (lookback self)); [lia|reflexivity].
Qed.

Lemma _validate_input_short (data : list CandleData) (w : world) :
  Z.of_nat (length data) < lookback self ->
  _validate_input self data w = (Raise (insufficient_data self (length data)), w).
Proof.
  intros Hlen. unfold _validate_input.
  destruct (Z.ltb_spec (Z.of_nat (length data)) (lookback self)); [reflexivity|lia].
Qed.

(** What [predict] makes of the outcome of its [try] block. *)
Lemma predict_unfold (data : list CandleData) (w : world) :
  predict data w =
    match predict_try data w with
    | (Return r, w') => (Return r, w')
    | (Raise e, w') =>
        (Raise (if is_ValueError e then e else pipeline_error e),
         set_total_errors (S (total_errors w')) w')
    end.
Proof.
  unfold inference.predict. rewrite track_time_transparent.
  unfold try_except, predict_except.
  destruct (inference.predict_try settings self data w) as [[r|e] w']; [reflexivity|].
  destruct (is_ValueError e); reflexivity.
Qed.

(** C2.  With a positive window length (the only kind
    [Settings.validate] accepts), records put in front of a sequence
    that already has [LOOKBACK] records change nothing: the outcome of
    [predict], value or exception, and the world it leaves are the
    same. *)
Theorem predict_trailing_window (extra data : list CandleData) (w : world) :
  0 < lookback self ->
  lookback self <= Z.of_nat (length data) ->
  predict (extra ++ data) w = predict data w.
Proof.
  intros Hpos Hlen.
  rewrite !predict_unfold.
  assert (Htry : predict_try (extra ++ data) w = predict_try data w).
  { unfold inference.predict_try, bind.
    rewrite !_validate_input_ok by (rewrite ?length_app; lia).
    unfold _prepare_features, _get_last_sequence, ret, array_float32.
    rewrite !map_app, slice_from_trailing by (rewrite ?length_map; lia).
    reflexivity. }
  rewrite Htry. reflexivity.
Qed.

(** C3.  On fewer than [LOOKBACK] records [predict] raises the
    [ValueError] of [_validate_input] itself, unwrapped, and the only
    thing it changes is the error counter: no accessor of the cache is
    called, storage is not touched, both cache slots are as before. *)
Theorem predict_insufficient_data (data : list CandleData) (w : world) :
  Z.of_nat (length data) < lookback self ->
  exists w',
    predict data w = (Raise (insufficient_data self (length data)), w') /\
    is_ValueError (insufficient_data self (length data)) = true /\
    trace w' = trace w /\
    _model_cache w' = _model_cache w /\
    _scaler_cache w' = _scaler_cache w /\
    _load_attempted w' = _load_attempted w.
Proof.
  intros Hshort.
  exists (set_total_errors (S (total_errors w)) w).
  rewrite predict_unfold. unfold inference.predict_try, bind.
  rewrite _validate_input_short by exact Hshort.
  repeat split.
Qed.

(** C5, as the code has it.  What leaves [predict] is decided by the
    class of the exception, not by the stage that raised it: a
    [ValueError] raised anywhere in the [try] block leaves unchanged,
    any other exception leaves wrapped in a [RuntimeError] that has it
    as cause; either way the error counter goes up by one. *)
Theorem predict_error_policy (data : list CandleData) (w w' : world) (e : exn) :
  predict_try data w = (Raise e, w') ->
  predict data w =
    (Raise (if is_ValueError e then e else pipeline_error e),
     set_total_errors (S (total_errors w')) w') /\
  (is_ValueError e = false ->
   exn_cls (pipeline_error e) = RuntimeError /\
   exn_cause (pipeline_error e) = Some e).
Proof.
  intros Htry. rewrite predict_unfold, Htry. split; [reflexivity|].
  intros _. split; reflexivity.
Qed.

(** C4, as the code has it.  [_denormalize_prediction] inverts through
    a zero-filled row as wide as the configured feature list, with the
    prediction in column 3, and reads column 3 of the result.  That is
    the denormalization the specification describes whenever "close" is
    the fourth configured feature and the scaler expects as many
    columns as are configured, as under the default settings. *)
Theorem denormalize_uses_fourth_column (pred_normalized : num) (w : world) :
  index_of "close" (features self) = Some 3%nat ->
  (forall s w', get_scaler settings w = (Return s, w') ->
                n_features_in_ s = Some (n_features self)) ->
  _denormalize_prediction pred_normalized w =
    bind (get_scaler settings)
      (fun scaler => denormalize_at (n_features self) 3 scaler pred_normalized) w /\
  _denormalize_prediction pred_normalized w =
    denormalize_as_specified settings self pred_normalized w.
Proof.
  intros Hcol Hwidth. split; [reflexivity|].
  unfold inference._denormalize_prediction, denormalize_as_specified, bind.
  destruct (get_scaler settings w) as [[s|e] w'] eqn:Hget; [|reflexivity].
  rewrite (Hwidth s w' eq_refl), Hcol. reflexivity.
Qed.

End Facts.
End inference_facts.

(** * Properties of the candle schema *)

Module schemas_facts.
Import schemas.

(** C9, as the code has it.  [CandleData(...)] succeeds on exactly the
    [acceptable] records and then holds the five values as given; every
    other record is refused with at least one error.  The class sets no
    [model_config], so an instance is not frozen: assigning to one of
    its five fields succeeds, without validation. *)
Theorem CandleData_init_accepts_exactly (S : Scalar) (o h l c v : num) :
  match CandleData_init o h l c v with
  | Valid r =>
      acceptable o h l c v = true /\
      r = {| open := o; high := h; low := l; close := c; volume := v |}
  | ValidationError errs =>
      acceptable o h l c v = false /\ errs <> []
  end /\
  (forall (r : CandleData) (name : string) (x : num),
     setattr r name x =
       match assign r name x with
       | Some r' => Valid r'
       | None => ValidationError [(name, no_such_attribute)]
       end).
Proof.
  split; [|reflexivity].
  destruct S as [num0 zero0 lt0 le0 f32].
  unfold acceptable, CandleData_init, validate_field, satisfies, bound_error,
    high_must_be_highest, low_must_be_lowest, initial_state. simpl in *.
  (* the five [Field] constraints *)
  destruct (lt0 zero0 o), (lt0 zero0 h), (lt0 zero0 l), (lt0 zero0 c),
    (le0 zero0 v); vm_compute;
  (* the validator of [low], reached when [high] and [low] passed theirs *)
  try destruct (lt0 h l);
  (split; [reflexivity | first [reflexivity | discriminate]]).
Qed.

End schemas_facts.

(** * The embedding at work on the sample instance *)

Module sample_facts.
Import schemas np monitoring model_loader inference sample.

(** C1, evaluated.  The model file is there and does not load.  The
    first [get_model] fails; the handler clears [_load_attempted], so
    the second and the third call do not reach the "previous attempt
    failed" guard: each reads the file again and fails with the load
    error.  After [clear_cache] and with a file that loads, [get_model]
    succeeds. *)
Theorem get_model_failure_is_retried :
  let w1 := snd (get_model settings2 world_bad_model) in
  let w2 := snd (get_model settings2 w1) in
  let w3 := snd (get_model settings2 w2) in
  let w4 := put_model_file (Stored sum_model) (snd (clear_cache w3)) in
  fst (get_model settings2 world_bad_model) = Raise load_failure /\
  _load_attempted w1 = false /\
  fst (get_model settings2 w1) = Raise load_failure /\
  fst (get_model settings2 w2) = Raise load_failure /\
  load_failure <> mk_exn RuntimeError latched_message None /\
  reads ModelArtifact w1 = 1%nat /\
  reads ModelArtifact w2 = 2%nat /\
  reads ModelArtifact w3 = 3%nat /\
  fst (get_model settings2 w4) = Return sum_model /\
  is_model_loaded (snd (get_model settings2 w4)) = true.
Proof.
  cbv zeta. repeat split; try reflexivity. discriminate.
Qed.

(** C8, the counterexample.  Two fresh processes that differ in the
    model file only, the scaler file being in place in both: where the
    model loads, [load_model_and_scaler] goes on to load the scaler;
    where it does not, the scaler's storage is never touched and the
    scaler stays unloaded, although [get_scaler] on its own succeeds
    there. *)
Lemma load_model_and_scaler_skips_scaler :
  storage_accesses ScalerArtifact (snd (load_model_and_scaler settings2 world_ok)) =
    [PathExists ScalerArtifact; ReadFile ScalerArtifact] /\
  is_scaler_loaded (snd (load_model_and_scaler settings2 world_ok)) = true /\
  storage_accesses ScalerArtifact (snd (load_model_and_scaler settings2 world_no_model)) = [] /\
  is_scaler_loaded (snd (load_model_and_scaler settings2 world_no_model)) = false /\
  fst (get_scaler settings2 world_no_model) = Return scaler5.
Proof. repeat split; reflexivity. Qed.

(** C5, the counterexample.  Two records, a window of two, a scaler
    fitted on four columns: validation passes, the normalization stage
    raises the scaler's [ValueError], and [predict] lets that very
    exception out, not a wrapper around it. *)
Lemma predict_stage4_ValueError_unwrapped :
  fst (_validate_input pipeline2 [candle1; candle2] world_narrow_scaler) = Return tt /\
  fst (predict settings2 pipeline2 [candle1; candle2] world_narrow_scaler) =
    Raise (feature_count_error 5 4) /\
  exn_cls (feature_count_error 5 4) = ValueError /\
  exn_cause (feature_count_error 5 4) = None /\
  fst (predict settings2 pipeline2 [candle1; candle2] world_narrow_scaler) <>
    Raise (pipeline_error (feature_count_error 5 4)).
Proof. repeat split; try reflexivity. discriminate. Qed.

(** C4, the counterexample.  With "close" listed first, its column is
    0, and the denormalization the specification words inverts through
    that column; the code inverts through column 3 and answers with the
    scale of another feature. *)
Lemma denormalize_ignores_feature_order :
  index_of "close" (features pipeline_close_first) = Some 0%nat /\
  fst (_denormalize_prediction settings_close_first pipeline_close_first 7 world_ok) =
    Return 19 /\
  fst (denormalize_as_specified settings_close_first pipeline_close_first 7 world_ok) =
    Return 170 /\
  fst (_denormalize_prediction settings_close_first pipeline_close_first 7 world_ok) <>
  fst (denormalize_as_specified settings_close_first pipeline_close_first 7 world_ok).
Proof. repeat split; try reflexivity. discriminate. Qed.

(** C9, the counterexample.  A record that was accepted takes a
    negative opening price by plain assignment. *)
Lemma CandleData_is_not_frozen :
  CandleData_init 150 152 149 151 1000 = Valid candle1 /\
  setattr candle1 "open" (-5) = Valid (candle (-5) 152 149 151 1000) /\
  acceptable (-5) 152 149 151 1000 = false.
Proof. repeat split; reflexivity. Qed.

(** *** The theorems with hypotheses, applied *)

Lemma get_model_idempotent_witness :
  get_model settings2 world_ok = (Return sum_model, snd (get_model settings2 world_ok)) /\
  fst (repeat_call (get_model settings2) 3 (snd (get_model settings2 world_ok))) =
    replicate 3 (Return sum_model) /\
  reads ModelArtifact
    (snd (repeat_call (get_model settings2) 3 (snd (get_model settings2 world_ok)))) = 1%nat.
Proof.
  assert (Hrun : get_model settings2 world_ok =
                 (Return sum_model, snd (get_model settings2 world_ok)))
    by reflexivity.
  destruct (model_loader_facts.get_model_idempotent settings2 world_ok _ sum_model 3 Hrun)
    as (Hsame & _ & Hreads).
  split; [exact Hrun|]. split; [exact Hsame|]. exact (Hreads eq_refl).
Defined.

Lemma get_scaler_failure_not_latched_witness :
  get_scaler settings2 world_no_scaler =
    (Raise scaler_not_found, snd (get_scaler settings2 world_no_scaler)) /\
  fst (get_scaler settings2
         (put_scaler_file (Stored scaler5) (snd (get_scaler settings2 world_no_scaler)))) =
    Return scaler5.
Proof.
  assert (Hrun : get_scaler settings2 world_no_scaler =
                 (Raise scaler_not_found, snd (get_scaler settings2 world_no_scaler)))
    by reflexivity.
  destruct (model_loader_facts.get_scaler_failure_not_latched
              settings2 world_no_scaler _ scaler_not_found Hrun) as (_ & Hrecover).
  split; [exact Hrun|]. exact (proj1 (Hrecover scaler5)).
Defined.

Lemma failed_load_restores_unloaded_state_witness :
  model_loader.latched world_empty = false /\
  (_model_cache (snd (get_model settings2 world_empty)) = None /\
   _load_attempted (snd (get_model settings2 world_empty)) = false /\
   is_model_loaded (snd (get_model settings2 world_empty)) = false /\
   _scaler_cache (snd (get_model settings2 world_empty)) = _scaler_cache world_empty) /\
  (_scaler_cache (snd (get_scaler settings2 world_empty)) = None /\
   is_scaler_loaded (snd (get_scaler settings2 world_empty)) = false /\
   _model_cache (snd (get_scaler settings2 world_empty)) = _model_cache world_empty /\
   _load_attempted (snd (get_scaler settings2 world_empty)) = _load_attempted world_empty).
Proof.
  assert (Hl : model_loader.latched world_empty = false) by reflexivity.
  destruct (model_loader_facts.failed_load_restores_unloaded_state
              settings2 world_empty Hl) as (Hmodel & Hscaler).
  split; [exact Hl|]. split.
  - apply (Hmodel model_not_found). reflexivity.
  - apply (Hscaler scaler_not_found). reflexivity.
Defined.

Lemma load_model_and_scaler_sequential_witness :
  get_model settings2 world_ok = (Return sum_model, snd (get_model settings2 world_ok)) /\
  fst (load_model_and_scaler settings2 world_ok) = Return (sum_model, scaler5) /\
  fst (get_scaler settings2 (snd (get_model settings2 world_ok))) =
    fst (get_scaler settings2 world_ok).
Proof.
  assert (Hrun : get_model settings2 world_ok =
                 (Return sum_model, snd (get_model settings2 world_ok)))
    by reflexivity.
  destruct (model_loader_facts.load_model_and_scaler_sequential settings2 world_ok)
    as (Hseq & _ & Hscaler).
  split; [exact Hrun|]. split; [rewrite Hseq; reflexivity|].
  exact (Hscaler sum_model _ Hrun).
Defined.

Lemma predict_trailing_window_witness :
  0 < lookback pipeline2 /\
  lookback pipeline2 <= Z.of_nat (length [candle1; candle2]) /\
  predict settings2 pipeline2 ([candle3] ++ [candle1; candle2]) world_ok =
  predict settings2 pipeline2 [candle1; candle2] world_ok.
Proof.
  assert (Hpos : 0 < lookback pipeline2) by reflexivity.
  assert (Hlen : lookback pipeline2 <= Z.of_nat (length [candle1; candle2]))
    by (vm_compute; discriminate).
  split; [exact Hpos|]. split; [exact Hlen|].
  exact (inference_facts.predict_trailing_window
           settings2 pipeline2 [candle3] [candle1; candle2] world_ok Hpos Hlen).
Defined.

Lemma predict_insufficient_data_witness :
  Z.of_nat (length [candle1]) < lookback pipeline2 /\
  fst (predict settings2 pipeline2 [candle1] world_ok) =
    Raise (insufficient_data pipeline2 1) /\
  trace (snd (predict settings2 pipeline2 [candle1] world_ok)) = [].
Proof.
  assert (Hshort : Z.of_nat (length [candle1]) < lookback pipeline2) by reflexivity.
  destruct (inference_facts.predict_insufficient_data
              settings2 pipeline2 [candle1] world_ok Hshort)
    as (w' & Hrun & _ & Htrace & _).
  split; [exact Hshort|]. rewrite Hrun. split; [reflexivity | exact Htrace].
Defined.

Lemma predict_error_policy_witness :
  predict_try settings2 pipeline2 [candle1; candle2] world_no_model =
    (Raise model_not_found,
     snd (predict_try settings2 pipeline2 [candle1; candle2] world_no_model)) /\
  fst (predict settings2 pipeline2 [candle1; candle2] world_no_model) =
    Raise (pipeline_error model_not_found).
Proof.
  assert (Htry : predict_try settings2 pipeline2 [candle1; candle2] world_no_model =
                 (Raise model_not_found,
                  snd (predict_try settings2 pipeline2 [candle1; candle2] world_no_model)))
    by reflexivity.
  destruct (inference_facts.predict_error_policy
              settings2 pipeline2 [candle1; candle2] world_no_model _ model_not_found Htry)
    as (Hrun & _).
  split; [exact Htry|]. rewrite Hrun. reflexivity.
Defined.

Lemma denormalize_uses_fourth_column_witness :
  index_of "close" (features pipeline2) = Some 3%nat /\
  n_features_in_ scaler5 = Some (n_features pipeline2) /\
  _denormalize_prediction settings2 pipeline2 7 world_ok =
    denormalize_as_specified settings2 pipeline2 7 world_ok /\
  fst (_denormalize_prediction settings2 pipeline2 7 world_ok) = Return 19.
Proof.
  assert (Hcol : index_of "close" (features pipeline2) = Some 3%nat) by reflexivity.
  assert (Hwidth : forall s w',
            get_scaler settings2 world_ok = (Return s, w') ->
            n_features_in_ s = Some (n_features pipeline2)).
  { intros s w' Hget.
    change (get_scaler settings2 world_ok)
      with (Return scaler5, snd (get_scaler settings2 world_ok)) in Hget.
    injection Hget as <- _. reflexivity. }
  destruct (inference_facts.denormalize_uses_fourth_column (H := Z_scalar)
              settings2 pipeline2 7 world_ok Hcol Hwidth) as (_ & Hspec).
  split; [exact Hcol|]. split; [reflexivity|]. split; [exact Hspec | reflexivity].
Defined.

End sample_facts.

(** * Further properties of the code *)

(** ** How a relation between worlds passes through the monad *)

Module closure.
Import schemas np monitoring model_loader inference api process.
Section Closure.
Context `{Scalar}.
Variable settings : Settings.
Variable R : world -> world -> Prop.
Hypothesis R_refl : forall w, R w w.
Hypothesis R_trans : forall w1 w2 w3, R w1 w2 -> R w2 w3 -> R w1 w3.

Lemma respects_ret {A : Type} (a : A) : respects R (ret a).
Proof. intros w. apply R_refl. Qed.

Lemma respects_raise {A : Type} (e : exn) : respects R (raise (A := A) e).
Proof. intros w. apply R_refl. Qed.

Lemma respects_lift {A : Type} (r : result A) : respects R (lift r).
Proof. intros w. apply R_refl. Qed.

Lemma respects_gets {A : Type} (f : world -> A) : respects R (gets f).
Proof. intros w. apply R_refl. Qed.

Lemma respects_bind {A B : Type} (c : py A) (k : A -> py B) :
  respects R c -> (forall a, respects R (k a)) -> respects R (bind c k).
Proof.
  intros Hc Hk w. unfold bind. specialize (Hc w).
  destruct (c w) as [[a|e] w1]; simpl in *; [|exact Hc].
  eapply R_trans; [exact Hc | apply Hk].
Qed.

Lemma respects_try_except {A : Type} (c : py A) (h : exn -> py A) :
  respects R c -> (forall e, respects R (h e)) -> respects R (try_except c h).
Proof.
  intros Hc Hh w. unfold try_except. specialize (Hc w).
  destruct (c w) as [[a|e] w1]; simpl in *; [exact Hc|].
  eapply R_trans; [exact Hc | apply Hh].
Qed.

Lemma respects_track_time {A : Type} (name : string) (c : py A) :
  respects R c -> respects R (track_time name c).
Proof.
  intros Hc w. unfold track_time. specialize (Hc w).
  destruct (c w) as [[a|e] w1]; exact Hc.
Qed.

(** Steps of a proof that a composed computation respects [R]. *)
Ltac respects_step :=
  first
    [ assumption
    | apply respects_ret | apply respects_raise | apply respects_lift
    | apply respects_gets | apply respects_track_time
    | apply respects_bind; [|intros ?]
    | apply respects_try_except; [|intros ?] ].

Hypothesis get_model_respects : respects R (get_model settings).
Hypothesis get_scaler_respects : respects R (get_scaler settings).

Lemma load_model_and_scaler_respects : respects R (load_model_and_scaler settings).
Proof. unfold load_model_and_scaler. repeat respects_step. Qed.

Lemma predict_try_respects (self : InferencePipeline) (data : list CandleData) :
  respects R (predict_try settings self data).
Proof.
  unfold predict_try, _validate_input, _prepare_features, _get_last_sequence,
    _scale_features, _reshape_for_lstm, _predict, _denormalize_prediction.
  repeat respects_step.
  destruct (Z.of_nat (length data) <? lookback self); respects_step.
Qed.

(** When bumping the error counter respects [R], so does all of
    [predict]. *)
Lemma predict_respects (self : InferencePipeline) (data : list CandleData) :
  (forall w n, R w (set_total_errors n w)) ->
  respects R (predict settings self data).
Proof.
  intros Hcount. unfold predict, predict_except, log_error, increment_errors.
  apply respects_track_time, respects_try_except; [apply predict_try_respects|].
  intros e. destruct (is_ValueError e);
    (apply respects_bind; [intros w; apply Hcount | intros _; apply respects_raise]).
Qed.

Lemma get_model_info_respects : respects R (get_model_info settings).
Proof.
  unfold get_model_info. repeat respects_step.
  - destruct a1; repeat respects_step.
  - destruct a3; repeat respects_step.
Qed.

Section WithCounter.
Hypothesis count_respects : forall w n, R w (set_total_errors n w).
Variable http_str : nat -> string -> string.

Lemma lifespan_startup_respects (w : world) (c : counters) :
  R w (fst (lifespan_startup settings (w, c))).
Proof.
  unfold lifespan_startup.
  pose proof (load_model_and_scaler_respects w) as Hload.
  destruct (load_model_and_scaler settings w) as [[r|e] w1]; exact Hload.
Qed.

Lemma log_prediction_request_respects (success : bool) (w : world) (c : counters) :
  R w (fst (log_prediction_request success (w, c))).
Proof.
  unfold log_prediction_request. destruct success; simpl;
    [apply R_refl | apply count_respects].
Qed.

Lemma predict_handler_try_respects (data : list CandleData) (w : world) (c : counters) :
  R w (fst (snd (predict_handler_try settings data (w, c)))).
Proof.
  unfold predict_handler_try.
  assert (Hlazy : forall w1, R w w1 ->
            R w (fst (snd
              match predict settings (inference_pipeline settings) data w1 with
              | (Return prediction, w2) =>
                  (inl prediction, log_prediction_request true (w2, c))
              | (Raise e, w2) =>
                  (inr (PyExn e) : PredictionResponse + raised, (w2, c))
              end))).
  { intros w1 Hw1.
    pose proof (predict_respects (inference_pipeline settings) data
                  count_respects w1) as Hp.
    destruct (predict settings (inference_pipeline settings) data w1)
      as [[r|e] w2]; simpl in *; eapply R_trans; eauto. }
  destruct (negb (is_model_loaded w) || negb (is_scaler_loaded w)).
  - pose proof (load_model_and_scaler_respects w) as Hload.
    destruct (load_model_and_scaler settings w) as [[r|e] w1]; simpl in Hload.
    + apply Hlazy, Hload.
    + simpl. eapply R_trans; [exact Hload | apply count_respects].
  - apply Hlazy, R_refl.
Qed.

Lemma predict_handler_respects (data : list CandleData) (w : world) (c : counters) :
  R w (fst (snd (predict_handler settings http_str data (w, c)))).
Proof.
  unfold predict_handler.
  pose proof (predict_handler_try_respects data w c) as Htry.
  destruct (predict_handler_try settings data (w, c)) as [[r|[e|code detail]] [w1 c1]];
    simpl in Htry; [exact Htry | |].
  - destruct (is_ValueError e); simpl.
    + eapply R_trans; [exact Htry | apply count_respects].
    + eapply R_trans; [exact Htry |].
      eapply R_trans; apply count_respects.
  - simpl. eapply R_trans; [exact Htry |].
    eapply R_trans; apply count_respects.
Qed.

End WithCounter.

End Closure.
End closure.

(** ** The cache and the pipeline over a whole run *)

Module process_facts.
Import schemas np monitoring model_loader inference api process closure.
Import model_loader_facts inference_facts.
Section Facts.
Context `{Scalar}.
Variable settings : Settings.
Variable http_str : nat -> string -> string.

(** Unfolds the accessors down to the case analysis on the world. *)
Ltac unfold_loader :=
  unfold get_model, get_scaler, get_model_try, get_model_except,
    get_scaler_try, get_scaler_except, import_tensorflow, model_path_exists,
    load_model, scaler_path_exists, joblib_load, try_except, bind, modify,
    gets, ret, raise, lift, observe, set_model_cache, set_scaler_cache,
    set_load_attempted in *;
  simpl in *.

(** *** The three relations are preorders the accessors respect *)

Lemma unlatched_kept_refl (w : world) : unlatched_kept w w.
Proof. intros Hl. exact Hl. Qed.

Lemma unlatched_kept_trans (w1 w2 w3 : world) :
  unlatched_kept w1 w2 -> unlatched_kept w2 w3 -> unlatched_kept w1 w3.
Proof. unfold unlatched_kept. auto. Qed.

Lemma undisturbed_refl (w : world) : undisturbed w w.
Proof. repeat split. Qed.

Lemma undisturbed_trans (w1 w2 w3 : world) :
  undisturbed w1 w2 -> undisturbed w2 w3 -> undisturbed w1 w3.
Proof.
  intros (Hm & Hs & Ha & Hmf & Hsf & Htf & Hst) (Hm' & Hs' & Ha' & Hmf' & Hsf' & Htf' & Hst').
  repeat split; congruence.
Qed.

Lemma undisturbed_warm (w w' : world) :
  undisturbed w w' -> warm w' = warm w.
Proof.
  intros (Hm & Hs & _). unfold warm, is_model_loaded, is_scaler_loaded.
  rewrite Hm, Hs. reflexivity.
Qed.

Lemma quiet_when_warm_refl (w : world) : quiet_when_warm w w.
Proof. intros _. apply undisturbed_refl. Qed.

Lemma quiet_when_warm_trans (w1 w2 w3 : world) :
  quiet_when_warm w1 w2 -> quiet_when_warm w2 w3 -> quiet_when_warm w1 w3.
Proof.
  intros H12 H23 Hwarm. specialize (H12 Hwarm).
  eapply undisturbed_trans; [exact H12|].
  apply H23. rewrite (undisturbed_warm _ _ H12). exact Hwarm.
Qed.

Lemma same_error_count_refl (w : world) : same_error_count w w.
Proof. reflexivity. Qed.

Lemma same_error_count_trans (w1 w2 w3 : world) :
  same_error_count w1 w2 -> same_error_count w2 w3 -> same_error_count w1 w3.
Proof. unfold same_error_count. congruence. Qed.

Lemma undisturbed_accessor (a : artifact) (w : world) :
  undisturbed w (observe (Accessor a) w).
Proof.
  repeat split. intros b. rewrite storage_accesses_observe.
  destruct b; simpl; apply app_nil_r.
Qed.

Lemma undisturbed_count (w : world) (n : nat) :
  undisturbed w (set_total_errors n w).
Proof. repeat split. Qed.

Lemma get_model_unlatched : respects unlatched_kept (get_model settings).
Proof. intros w Hl. apply get_model_not_latched, Hl. Qed.

Lemma get_scaler_unlatched : respects unlatched_kept (get_scaler settings).
Proof. intros w Hl. apply get_scaler_not_latched, Hl. Qed.

Lemma get_model_quiet : respects quiet_when_warm (get_model settings).
Proof.
  intros w Hwarm. unfold warm, is_model_loaded in Hwarm.
  destruct (_model_cache w) as [m|] eqn:Hc; [|discriminate].
  rewrite (get_model_cached settings w m Hc). apply undisturbed_accessor.
Qed.

Lemma get_scaler_quiet : respects quiet_when_warm (get_scaler settings).
Proof.
  intros w Hwarm. unfold warm, is_scaler_loaded in Hwarm.
  destruct (_scaler_cache w) as [s|] eqn:Hc;
    [|rewrite andb_false_r in Hwarm; discriminate].
  rewrite (get_scaler_cached settings w s Hc). apply undisturbed_accessor.
Qed.

Lemma get_model_same_count : respects same_error_count (get_model settings).
Proof.
  intros w. unfold same_error_count.
  destruct w as [mc sc la te tf mf sf tr]. unfold_loader.
  destruct mc as [m0|]; [reflexivity|].
  destruct la; simpl; [reflexivity|].
  destruct tf as [[]|e0]; simpl; [|reflexivity].
  destruct mf as [|e1|m1]; simpl; try reflexivity.
  destruct (input_shape m1); reflexivity.
Qed.

Lemma get_scaler_same_count : respects same_error_count (get_scaler settings).
Proof.
  intros w. unfold same_error_count.
  destruct w as [mc sc la te tf mf sf tr]. unfold_loader.
  destruct sc as [s0|]; [reflexivity|].
  destruct sf as [|e1|s1]; reflexivity.
Qed.

(** *** What [validate] and [health] do to the world *)

Lemma validate_world (w : world) :
  snd (validate settings w) =
  observe (PathExists ScalerArtifact) (observe (PathExists ModelArtifact) w).
Proof.
  unfold validate, bind, model_path_exists, scaler_path_exists, ret, raise. simpl.
  match goal with |- snd (match ?l with _ => _ end _) = _ => destruct l end;
    reflexivity.
Qed.

Lemma perform_unlatched (w : world) (o : operation) :
  unlatched_kept w (perform settings http_str w o).
Proof.
  assert (Hcount : forall w n, unlatched_kept w (set_total_errors n w))
    by (intros ? ? Hl; exact Hl).
  destruct o; simpl.
  - apply get_model_unlatched.
  - apply get_scaler_unlatched.
  - apply (load_model_and_scaler_respects settings unlatched_kept
             unlatched_kept_refl unlatched_kept_trans
             get_model_unlatched get_scaler_unlatched).
  - intros _. reflexivity.
  - apply (get_model_info_respects settings unlatched_kept
             unlatched_kept_refl unlatched_kept_trans
             get_model_unlatched get_scaler_unlatched).
  - rewrite validate_world. intros Hl. exact Hl.
  - apply (predict_respects settings unlatched_kept
             unlatched_kept_refl unlatched_kept_trans
             get_model_unlatched get_scaler_unlatched _ _ Hcount).
  - intros Hl. exact Hl.
  - apply (lifespan_startup_respects settings unlatched_kept
             unlatched_kept_refl unlatched_kept_trans
             get_model_unlatched get_scaler_unlatched).
  - apply (predict_handler_respects settings unlatched_kept
             unlatched_kept_refl unlatched_kept_trans
             get_model_unlatched get_scaler_unlatched Hcount).
  - intros Hl. exact Hl.
  - intros Hl. exact Hl.
Qed.

Lemma fold_perform_unlatched (ops : list operation) (w : world) :
  latched w = false -> latched (fold_left (perform settings http_str) ops w) = false.
Proof.
  revert w. induction ops as [|o ops IH]; intros w Hl; simpl; [exact Hl|].
  apply IH, perform_unlatched, Hl.
Qed.

(** The state the guard of [get_model] tests for (an attempt recorded,
    no model cached) is never the state of the process: not after any
    sequence of calls of the accessors, the warm-up, [clear_cache],
    [get_model_info], [Settings.validate], the pipeline, the handlers,
    and of changes to the two files. *)
Theorem process_is_never_latched
    (tf : result unit) (mf : file Model) (sf : file Scaler) (ops : list operation) :
  latched (after settings http_str tf mf sf ops) = false.
Proof. apply fold_perform_unlatched. reflexivity. Qed.

(** Whatever the process did before, a [get_model] that raises raises
    the load failure with its cause, never the "previous attempt failed"
    error of the guard. *)
Theorem latch_guard_is_dead
    (tf : result unit) (mf : file Model) (sf : file Scaler) (ops : list operation)
    (e : exn) (w' : world) :
  get_model settings (after settings http_str tf mf sf ops) = (Raise e, w') ->
  e <> mk_exn RuntimeError latched_message None /\
  exists e0,
    e = mk_exn RuntimeError ("Falha ao carregar modelo: " ++ str e0) (Some e0).
Proof.
  intros Hrun.
  destruct (get_model_Raise settings _ _ _ Hrun
              (fold_perform_unlatched ops (fresh tf mf sf) eq_refl))
    as (_ & _ & _ & e0 & He).
  split; [|exists e0; exact He].
  rewrite He. discriminate.
Qed.

(** With both artifacts cached, [predict] leaves the cache, the files
    and the record of storage accesses as they are, whatever the input
    and whether it succeeds or raises. *)
Theorem predict_on_warm_cache_is_quiet
    (self : InferencePipeline) (data : list CandleData) (w : world) :
  warm w = true ->
  undisturbed w (snd (predict settings self data w)).
Proof.
  apply (predict_respects settings quiet_when_warm
           quiet_when_warm_refl quiet_when_warm_trans
           get_model_quiet get_scaler_quiet self data).
  intros w0 n _. apply undisturbed_count.
Qed.

Lemma predict_total_errors
    (self : InferencePipeline) (data : list CandleData) (w : world) :
  total_errors (snd (predict settings self data w)) =
    (total_errors w +
     (if is_Return (fst (predict settings self data w)) then 0 else 1))%nat.
Proof.
  rewrite predict_unfold.
  pose proof (predict_try_respects settings same_error_count
                same_error_count_refl same_error_count_trans
                get_model_same_count get_scaler_same_count self data w) as Htry.
  unfold same_error_count in Htry.
  destruct (predict_try settings self data w) as [[r|e] w1]; simpl in *.
  - rewrite Htry. lia.
  - rewrite Htry. lia.
Qed.

(** [predict] adds one to the error counter exactly when it raises. *)
Theorem predict_counts_its_failures
    (self : InferencePipeline) (data : list CandleData) (w : world) :
  total_errors (snd (predict settings self data w)) =
    (total_errors w +
     (if is_Return (fst (predict settings self data w)) then 0 else 1))%nat.
Proof. apply predict_total_errors. Qed.

(** *** The [/predict] handler *)

Lemma load_model_and_scaler_total_errors (w : world) :
  total_errors (snd (load_model_and_scaler settings w)) = total_errors w.
Proof.
  apply (load_model_and_scaler_respects settings same_error_count
           same_error_count_refl same_error_count_trans
           get_model_same_count get_scaler_same_count).
Qed.

(** The handler after its lazy-load step, from a world [w1] that has
    the error count of [w]. *)
Lemma predict_handler_after_load
    (data : list CandleData) (w w1 : world) (c : counters) :
  total_errors w1 = total_errors w ->
  let '(r, (w', c')) :=
    match
      match predict settings (inference_pipeline settings) data w1 with
      | (Return prediction, w2) =>
          (inl prediction, log_prediction_request true (w2, c))
      | (Raise e, w2) => (inr (PyExn e) : PredictionResponse + raised, (w2, c))
      end
    with
    | (inl prediction, st1) => (Ok prediction, st1)
    | (inr (PyExn e), st1) =>
        if is_ValueError e then
          (HTTPException 400 (str e), log_prediction_request false st1)
        else
          let (w2, c2) := log_prediction_request false st1 in
          (HTTPException 500 ("Erro interno ao processar predição: " ++ str e),
           (snd (log_error e "/predict" w2), c2))
    | (inr (Http code detail), st1) =>
        let (w2, c2) := log_prediction_request false st1 in
        (HTTPException 500
           ("Erro interno ao processar predição: " ++ http_str code detail),
         (snd (increment_errors w2), c2))
    end in
  total_requests c' = S (total_requests c) /\
  total_cold_starts c' = total_cold_starts c /\
  match r with
  | Ok _ =>
      total_predictions c' = S (total_predictions c) /\
      total_errors w' = total_errors w
  | HTTPException code _ =>
      total_predictions c' = total_predictions c /\
      (code = 400%nat /\ total_errors w' = (total_errors w + 2)%nat \/
       code = 500%nat /\ total_errors w' = (total_errors w + 3)%nat)
  end.
Proof.
  intros Hcount.
  pose proof (predict_total_errors (inference_pipeline settings) data w1) as Hp.
  destruct (predict settings (inference_pipeline settings) data w1) as [[r|e] w2];
    simpl in Hp.
  - simpl. repeat split. lia.
  - destruct (is_ValueError e); simpl; repeat split.
    + left. split; [reflexivity|lia].
    + right. split; [reflexivity|lia].
Qed.

(** Every request to [/predict] is counted once; it is answered with a
    body, with status 400 or with status 500, and never with the 503 the
    handler raises when the lazy load fails.  A 200 adds one prediction
    and no error; a 400 adds two to the error counter, a 500 three. *)
Theorem predict_handler_accounts (data : list CandleData) (w : world) (c : counters) :
  let '(r, (w', c')) := predict_handler settings http_str data (w, c) in
  total_requests c' = S (total_requests c) /\
  total_cold_starts c' = total_cold_starts c /\
  match r with
  | Ok _ =>
      total_predictions c' = S (total_predictions c) /\
      total_errors w' = total_errors w
  | HTTPException code _ =>
      total_predictions c' = total_predictions c /\
      (code = 400%nat /\ total_errors w' = (total_errors w + 2)%nat \/
       code = 500%nat /\ total_errors w' = (total_errors w + 3)%nat)
  end.
Proof.
  unfold predict_handler, predict_handler_try.
  destruct (negb (is_model_loaded w) || negb (is_scaler_loaded w)).
  - pose proof (load_model_and_scaler_total_errors w) as Hload.
    destruct (load_model_and_scaler settings w) as [[r|e] w1]; simpl in Hload.
    + apply (predict_handler_after_load data w w1 c Hload).
    + simpl. repeat split. right. split; [reflexivity|lia].
  - apply (predict_handler_after_load data w w c eq_refl).
Qed.

(** When an artifact is not loaded and the lazy load fails, the
    pipeline is not run and the answer is the 500 built from the 503
    exception, whose text ends up in the detail. *)
Theorem predict_handler_masks_503
    (data : list CandleData) (w w1 : world) (c : counters) (e : exn) :
  warm w = false ->
  load_model_and_scaler settings w = (Raise e, w1) ->
  fst (predict_handler settings http_str data (w, c)) =
    HTTPException 500
      ("Erro interno ao processar predição: " ++
       http_str 503 "Modelo não disponível. Tente novamente em alguns segundos.") /\
  trace (fst (snd (predict_handler settings http_str data (w, c)))) = trace w1.
Proof.
  intros Hwarm Hload. unfold predict_handler, predict_handler_try.
  unfold warm in Hwarm. rewrite <- negb_andb, Hwarm, Hload. simpl.
  split; reflexivity.
Qed.

(** *** Warm-up, health and the informational calls *)

Lemma get_model_Raise_cache (w w' : world) (e : exn) :
  get_model settings w = (Raise e, w') -> _model_cache w' = None.
Proof.
  destruct w as [mc sc la te tf mf sf tr]. intros Hrun. unfold_loader.
  destruct mc as [m0|]; [discriminate|].
  destruct la; simpl in Hrun; [inversion Hrun; reflexivity|].
  destruct tf as [[]|e0]; simpl in Hrun; [|inversion Hrun; reflexivity].
  destruct mf as [|e1|m1]; simpl in Hrun; try (inversion Hrun; reflexivity).
  destruct (input_shape m1); simpl in Hrun; inversion Hrun; reflexivity.
Qed.

Lemma load_model_and_scaler_outcome (w w1 : world) (r : result (Model * Scaler)) :
  load_model_and_scaler settings w = (r, w1) ->
  match r with
  | Return (m, s) => _model_cache w1 = Some m /\ _scaler_cache w1 = Some s
  | Raise _ => _model_cache w1 = None \/ _scaler_cache w1 = None
  end.
Proof.
  unfold load_model_and_scaler, try_except, bind, ret, raise.
  destruct (get_model settings w) as [[m|e] w2] eqn:Hm.
  - destruct (get_scaler settings w2) as [[s|e] w3] eqn:Hs;
      intros Heq; inversion Heq; subst.
    + destruct (get_model_Return settings _ _ _ Hm) as (Hmc & _).
      destruct (get_scaler_Return settings _ _ _ Hs) as (Hsc & Hkeep & _).
      split; congruence.
    + right. apply (get_scaler_Raise settings _ _ _ Hs).
  - intros Heq; inversion Heq; subst. left.
    apply (get_model_Raise_cache _ _ _ Hm).
Qed.

(** A warm-up that returns leaves both artifacts cached; warming up
    again gives the same pair back and leaves cache, files and the
    record of storage accesses alone. *)
Theorem load_model_and_scaler_warms (w w1 : world) (m : Model) (s : Scaler) :
  load_model_and_scaler settings w = (Return (m, s), w1) ->
  warm w1 = true /\
  fst (load_model_and_scaler settings w1) = Return (m, s) /\
  undisturbed w1 (snd (load_model_and_scaler settings w1)).
Proof.
  intros Hload.
  destruct (load_model_and_scaler_outcome w w1 _ Hload) as (Hm & Hs).
  assert (Hwarm : warm w1 = true)
    by (unfold warm, is_model_loaded, is_scaler_loaded; rewrite Hm, Hs; reflexivity).
  split; [exact Hwarm|]. split.
  - unfold load_model_and_scaler, try_except, bind, ret.
    rewrite (get_model_cached settings w1 m Hm).
    rewrite (get_scaler_cached settings _ s) by exact Hs. reflexivity.
  - apply (load_model_and_scaler_respects settings quiet_when_warm
             quiet_when_warm_refl quiet_when_warm_trans
             get_model_quiet get_scaler_quiet w1 Hwarm).
Qed.

(** After the start-up of the application, [/health] answers "healthy"
    exactly when the eager load succeeded, which is also exactly when a
    cold start was counted; the handler itself changes nothing. *)
Theorem health_after_startup (w : world) (c : counters) :
  exists r,
    health (fst (lifespan_startup settings (w, c))) =
      (Return r, fst (lifespan_startup settings (w, c))) /\
    String.eqb (status r) "healthy" =
      is_Return (fst (load_model_and_scaler settings w)) /\
    total_cold_starts (snd (lifespan_startup settings (w, c))) =
      (total_cold_starts c +
       (if is_Return (fst (load_model_and_scaler settings w)) then 1 else 0))%nat.
Proof.
  unfold lifespan_startup, health, bind, gets, ret.
  destruct (load_model_and_scaler settings w) as [[[m s]|e] w1] eqn:Hload;
    pose proof (load_model_and_scaler_outcome w w1 _ Hload) as Hout; simpl in *.
  - destruct Hout as (Hm & Hs). eexists. split; [reflexivity|].
    unfold is_model_loaded, is_scaler_loaded. rewrite Hm, Hs. simpl.
    split; [reflexivity|lia].
  - eexists. split; [reflexivity|].
    unfold is_model_loaded, is_scaler_loaded.
    split; [|lia].
    destruct Hout as [Hnone|Hnone]; rewrite Hnone.
    + destruct (_scaler_cache w1); reflexivity.
    + destruct (_model_cache w1); reflexivity.
Qed.

Lemma repeat_get_scaler_cached (N : nat) (w : world) (s : Scaler) :
  _scaler_cache w = Some s ->
  fst (repeat_call (get_scaler settings) N w) = replicate N (Return s) /\
  undisturbed w (snd (repeat_call (get_scaler settings) N w)).
Proof.
  revert w. induction N as [|N IH]; intros w Hc; simpl.
  - split; [reflexivity | apply undisturbed_refl].
  - rewrite (get_scaler_cached settings w s Hc).
    pose proof (IH (observe (Accessor ScalerArtifact) w) Hc) as (Hr & Hu).
    destruct (repeat_call (get_scaler settings) N (observe (Accessor ScalerArtifact) w))
      as [rs wN].
    simpl in *. subst rs. split; [reflexivity|].
    eapply undisturbed_trans; [apply undisturbed_accessor | exact Hu].
Qed.

(** Once [get_scaler] has succeeded with handle [s], any number of
    further calls return that same [s] and leave cache, files and the
    record of storage accesses alone. *)
Theorem get_scaler_idempotent (w w1 : world) (s : Scaler) (N : nat) :
  get_scaler settings w = (Return s, w1) ->
  fst (repeat_call (get_scaler settings) N w1) = replicate N (Return s) /\
  undisturbed w1 (snd (repeat_call (get_scaler settings) N w1)).
Proof.
  intros Hrun. apply repeat_get_scaler_cached.
  apply (get_scaler_Return settings _ _ _ Hrun).
Qed.

(** [Settings.validate] returns [True] exactly when both artifact files
    exist, [LOOKBACK] is positive and [FEATURES] is not empty; otherwise
    it raises a [ValueError].  It looks at the two paths and reads
    neither file, and the cache is not involved. *)
Theorem validate_accepts_iff (w : world) :
  (fst (validate settings w) = Return true <->
   model_file w <> Missing /\ scaler_file w <> Missing /\
   0 < LOOKBACK settings /\ FEATURES settings <> []) /\
  (forall e, fst (validate settings w) = Raise e -> exn_cls e = ValueError) /\
  (forall b, fst (validate settings w) = Return b -> b = true) /\
  (forall a, reads a (snd (validate settings w)) = reads a w) /\
  _model_cache (snd (validate settings w)) = _model_cache w /\
  _scaler_cache (snd (validate settings w)) = _scaler_cache w.
Proof.
  split; [|split; [|split; [|split]]].
  - unfold validate, bind, model_path_exists, scaler_path_exists, ret, raise.
    simpl.
    destruct (model_file w) as [|e1|m1], (scaler_file w) as [|e2|s2];
      destruct (Z.leb_spec (LOOKBACK settings) 0);
      destruct (FEATURES settings) as [|f fs]; simpl;
      (split; [intros Hok; try discriminate; repeat split;
                 first [discriminate | lia]
              | intros (Hm & Hs & Hl & Hf); first [reflexivity | congruence | lia]]).
  - unfold validate, bind, model_path_exists, scaler_path_exists, ret, raise.
    simpl. intros e.
    match goal with |- fst (match ?l with _ => _ end _) = _ -> _ => destruct l end;
      simpl; intros Heq; inversion Heq; reflexivity.
  - unfold validate, bind, model_path_exists, scaler_path_exists, ret, raise.
    simpl. intros b.
    match goal with |- fst (match ?l with _ => _ end _) = _ -> _ => destruct l end;
      simpl; intros Heq; inversion Heq; reflexivity.
  - intros a. rewrite validate_world, !reads_observe.
    destruct a; simpl; lia.
  - rewrite validate_world. split; reflexivity.
Qed.

End Facts.
End process_facts.

(** ** The stages of the pipeline *)

Module stage_facts.
Import schemas np monitoring model_loader inference api process.
Import model_loader_facts inference_facts.
Section Facts.
Context `{Scalar}.
Variable settings : Settings.
Variable self : InferencePipeline.

(** *** The window *)

(** For a positive [LOOKBACK] the window is the tail of the matrix: the
    last [LOOKBACK] rows in their order, or all rows when there are
    fewer. *)
Theorem window_is_the_tail (X : matrix) (w : world) :
  0 < lookback self ->
  exists front win,
    _get_last_sequence self X w = (Return win, w) /\
    X = (front ++ win)%list /\
    length win = Nat.min (Z.to_nat (lookback self)) (length X).
Proof.
  intros Hpos. unfold _get_last_sequence, ret, slice_from.
  destruct (Z.ltb_spec (- lookback self) 0) as [_|]; [|lia].
  set (k := Z.to_nat (Z.max (Z.of_nat (length X) + - lookback self) 0)).
  exists (take k X), (drop k X). split; [reflexivity|]. split.
  - symmetry. apply take_drop.
  - rewrite length_drop. subst k. lia.
Qed.

(** A [LOOKBACK] that is not positive takes the length check and the
    window away: every input passes validation, the empty one included,
    and the "window" is the matrix without its first [-LOOKBACK] rows,
    which for [LOOKBACK = 0] is the whole matrix. *)
Theorem nonpositive_lookback_disables_the_window
    (data : list CandleData) (X : matrix) (w : world) :
  lookback self <= 0 ->
  _validate_input self data w = (Return tt, w) /\
  _get_last_sequence self X w =
    (Return (drop (Z.to_nat (- lookback self)) X), w).
Proof.
  intros Hneg. split.
  - apply _validate_input_ok. lia.
  - unfold _get_last_sequence, ret, slice_from.
    destruct (Z.ltb_spec (- lookback self) 0) as [|_]; [lia|].
    destruct (Z.le_gt_cases (- lookback self) (Z.of_nat (length X))) as [Hle|Hgt].
    + rewrite Z.min_l by lia. reflexivity.
    + rewrite Z.min_r by lia. rewrite Nat2Z.id.
      rewrite drop_all, drop_ge by lia. reflexivity.
Qed.

(** *** The reshape *)

Lemma rows_of_length (n count : nat) (flat : list num) :
  length (rows_of n count flat) = count.
Proof.
  revert flat. induction count as [|c IH]; intros flat; simpl;
    [reflexivity | rewrite IH; reflexivity].
Qed.

Lemma rows_of_widths (n count : nat) (flat : list num) :
  length flat = (count * n)%nat ->
  Forall (fun row => length row = n) (rows_of n count flat).
Proof.
  revert flat. induction count as [|c IH]; intros flat Hlen; simpl.
  - constructor.
  - constructor.
    + rewrite length_take. simpl in Hlen. lia.
    + apply IH. rewrite length_drop. simpl in Hlen. lia.
Qed.

Lemma rows_of_concat (n count : nat) (flat : list num) :
  length flat = (count * n)%nat ->
  concat (rows_of n count flat) = flat.
Proof.
  revert flat. induction count as [|c IH]; intros flat Hlen; simpl.
  - destruct flat; [reflexivity | discriminate].
  - rewrite IH by (rewrite length_drop; simpl in Hlen; lia).
    apply take_drop.
Qed.

Lemma concat_rows_length (n : nat) (X : matrix) :
  Forall (fun row => length row = n) X ->
  length (concat X) = (length X * n)%nat.
Proof.
  induction 1 as [|row X Hrow _ IH]; simpl; [reflexivity|].
  rewrite length_app, IH, Hrow. reflexivity.
Qed.

Lemma rows_of_rows (n : nat) (X : matrix) :
  Forall (fun row => length row = n) X ->
  rows_of n (length X) (concat X) = X.
Proof.
  induction 1 as [|row X Hrow _ IH]; simpl; [reflexivity|].
  rewrite take_app_length', drop_app_length' by (symmetry; exact Hrow).
  rewrite IH. reflexivity.
Qed.

(** For a [LOOKBACK] that is not negative, the reshape succeeds exactly
    when the matrix holds [LOOKBACK * n_features] numbers.  It then
    gives one batch of [LOOKBACK] rows of [n_features] columns with the
    same numbers in the same order; otherwise it raises a
    [ValueError]. *)
Theorem reshape_succeeds_iff_sizes_agree (X : matrix) (w : world) :
  0 <= lookback self ->
  (Z.of_nat (size X) = lookback self * Z.of_nat (n_features self) ->
   exists T,
     _reshape_for_lstm self X w = (Return [T], w) /\
     Z.of_nat (length T) = lookback self /\
     Forall (fun row => length row = n_features self) T /\
     concat T = concat X) /\
  (Z.of_nat (size X) <> lookback self * Z.of_nat (n_features self) ->
   exists e,
     _reshape_for_lstm self X w = (Raise e, w) /\ exn_cls e = ValueError).
Proof.
  intros Hpos. unfold _reshape_for_lstm, lift, reshape_1, size.
  destruct (Z.ltb_spec (lookback self) (-1)) as [|_]; [lia|].
  destruct (Z.eqb_spec (lookback self) (-1)) as [|_]; [lia|].
  split; intros Hsize.
  - destruct (Z.eqb_spec (Z.of_nat (length (concat X)))
                (lookback self * Z.of_nat (n_features self))) as [_|]; [|lia].
    assert (Hlen : length (concat X) =
                   (Z.to_nat (lookback self) * n_features self)%nat) by nia.
    eexists. split; [reflexivity|]. split; [|split].
    + rewrite rows_of_length. lia.
    + apply rows_of_widths, Hlen.
    + apply rows_of_concat, Hlen.
  - destruct (Z.eqb_spec (Z.of_nat (length (concat X)))
                (lookback self * Z.of_nat (n_features self))) as [|_]; [lia|].
    eexists. split; reflexivity.
Qed.

(** A matrix that already has [LOOKBACK] rows of [n_features] columns
    goes into the batch as it is. *)
Theorem reshape_keeps_rows (X : matrix) (w : world) :
  Z.of_nat (length X) = lookback self ->
  Forall (fun row => length row = n_features self) X ->
  _reshape_for_lstm self X w = (Return [X], w).
Proof.
  intros Hrows Hcols. unfold _reshape_for_lstm, lift, reshape_1.
  pose proof (concat_rows_length _ _ Hcols) as Hsize.
  destruct (Z.ltb_spec (lookback self) (-1)) as [|_]; [lia|].
  destruct (Z.eqb_spec (lookback self) (-1)) as [|_]; [lia|].
  destruct (Z.eqb_spec (Z.of_nat (length (concat X)))
              (lookback self * Z.of_nat (n_features self))) as [_|]; [|nia].
  rewrite <- Hrows, Nat2Z.id, (rows_of_rows _ _ Hcols). reflexivity.
Qed.

(** *** The model call *)

(** Of what the model returns only the first entry is read: the first
    item of a rank-1 output, the first item of the first row of a rank-2
    output.  That number is the prediction, and the world is the one
    [get_model] left. *)
Theorem _predict_reads_the_first_entry
    (X : list matrix) (w w1 : world) (m : Model) (v : num)
    (others : list ndarray) (rows : list ndarray) :
  get_model settings w = (Return m, w1) ->
  model_predict m X = Return (Array (Item v :: others)) \/
  model_predict m X = Return (Array (Array (Item v :: others) :: rows)) ->
  _predict settings X w = (Return v, w1).
Proof.
  intros Hget Hout. unfold _predict. rewrite track_time_transparent.
  unfold bind, lift, ret. rewrite Hget.
  destruct Hout as [-> | ->]; reflexivity.
Qed.

(** A model that returns an empty array makes [_predict] raise an
    [IndexError], which [predict] wraps. *)
Theorem _predict_on_empty_output
    (X : list matrix) (w w1 : world) (m : Model) :
  get_model settings w = (Return m, w1) ->
  model_predict m X = Return (Array []) ->
  _predict settings X w = (Raise (index_error 0 0 0), w1) /\
  is_ValueError (index_error 0 0 0) = false.
Proof.
  intros Hget Hout. unfold _predict. rewrite track_time_transparent.
  unfold bind, lift, ret. rewrite Hget, Hout. split; reflexivity.
Qed.

(** *** What a prediction that succeeds tells *)

Lemma bind_Return {A B : Type} (c : py A) (k : A -> py B)
    (w w' : world) (b : B) :
  bind c k w = (Return b, w') ->
  exists a w1, c w = (Return a, w1) /\ k a w1 = (Return b, w').
Proof.
  unfold bind. destruct (c w) as [[a|e] w1]; [|discriminate].
  intros Hk. exists a, w1. split; [reflexivity | exact Hk].
Qed.

Lemma lift_Return {A : Type} (r : result A) (w w' : world) (a : A) :
  lift r w = (Return a, w') -> r = Return a /\ w' = w.
Proof. unfold lift. intros Heq. inversion Heq. split; reflexivity. Qed.

Lemma ret_Return {A : Type} (a b : A) (w w' : world) :
  ret a w = (Return b, w') -> a = b /\ w' = w.
Proof. unfold ret. intros Heq. inversion Heq. split; reflexivity. Qed.

(** When [predict] returns a response: the input had at least
    [LOOKBACK] records, at least four features are configured, the
    response carries the configured model version and no confidence,
    both artifacts are cached afterwards, and the error counter has not
    moved. *)
Theorem predict_success
    (data : list CandleData) (w w' : world) (r : PredictionResponse) :
  predict settings self data w = (Return r, w') ->
  lookback self <= Z.of_nat (length data) /\
  (3 < n_features self)%nat /\
  model_version r = MODEL_VERSION settings /\
  confidence r = None /\
  is_model_loaded w' = true /\
  is_scaler_loaded w' = true /\
  total_errors w' = total_errors w.
Proof.
  intros Hrun.
  assert (Hcount : total_errors w' = total_errors w).
  { pose proof (process_facts.predict_total_errors settings self data w) as Hc.
    rewrite Hrun in Hc. simpl in Hc. lia. }
  rewrite predict_unfold in Hrun.
  destruct (predict_try settings self data w) as [[r0|e] w0] eqn:Htry;
    [|discriminate].
  inversion Hrun; subst r0 w0; clear Hrun.
  unfold predict_try in Htry.
  apply bind_Return in Htry as (u & w1 & Hvalid & Htry).
  assert (Hlen : lookback self <= Z.of_nat (length data)).
  { unfold _validate_input in Hvalid.
    destruct (Z.ltb_spec (Z.of_nat (length data)) (lookback self));
      [discriminate | lia]. }
  apply bind_Return in Htry as (X & w2 & _ & Htry).
  apply bind_Return in Htry as (Xseq & w3 & _ & Htry).
  apply bind_Return in Htry as (Xs & w4 & _ & Htry).
  apply bind_Return in Htry as (Xr & w5 & _ & Htry).
  apply bind_Return in Htry as (p & w6 & Hpred & Htry).
  apply bind_Return in Htry as (q & w7 & Hden & Htry).
  apply ret_Return in Htry as (Hr & Hw). subst r w'.
  (* the model is cached by the model call *)
  unfold _predict in Hpred. rewrite track_time_transparent in Hpred.
  apply bind_Return in Hpred as (m & w6a & Hgm & Hpred).
  apply bind_Return in Hpred as (out & w6b & Hl1 & Hpred).
  apply lift_Return in Hl1 as (_ & Hw). subst w6b.
  apply bind_Return in Hpred as (val & w6c & Hl2 & Hpred).
  apply lift_Return in Hl2 as (_ & Hw). subst w6c.
  apply ret_Return in Hpred as (_ & Hw). subst w6.
  destruct (get_model_Return settings _ _ _ Hgm) as (Hmc & _).
  (* the last stage leaves the scaler cached and wrote column 3 *)
  unfold _denormalize_prediction in Hden.
  apply bind_Return in Hden as (s & w7a & Hgs & Hden).
  apply bind_Return in Hden as (dummy & w7b & Hset & Hden).
  apply lift_Return in Hset as (Hset & Hw). subst w7b.
  apply bind_Return in Hden as (den & w7c & Hl3 & Hden).
  apply lift_Return in Hl3 as (_ & Hw). subst w7c.
  apply bind_Return in Hden as (real & w7d & Hl4 & Hden).
  apply lift_Return in Hl4 as (_ & Hw). subst w7d.
  apply ret_Return in Hden as (_ & Hw). subst w7.
  destruct (get_scaler_Return settings _ _ _ Hgs) as (Hsc & Hkeep & _).
  assert (Hwide : (3 < n_features self)%nat).
  { unfold setitem2, zeros_1 in Hset. simpl in Hset.
    rewrite length_replicate in Hset.
    destruct (Nat.ltb_spec 3 (n_features self)); [assumption | discriminate]. }
  repeat split; try assumption.
  - unfold is_model_loaded. rewrite Hkeep, Hmc. reflexivity.
  - unfold is_scaler_loaded. rewrite Hsc. reflexivity.
Qed.

End Facts.
End stage_facts.

(** ** The schema and the informational call *)

Module report_facts.
Import schemas model_loader process.

(** A refused record comes with one error for every field that failed,
    in the order of declaration: a price that is not positive, a volume
    that is negative, and, on [low] only, a [low] above a [high] that
    itself passed.  The validator of [high] never adds an error: when it
    runs, [low] is not yet among the validated fields. *)
Theorem CandleData_init_reports_every_failure
    (S : Scalar) (o h l c v : num) (errs : list line_error) :
  CandleData_init o h l c v = ValidationError errs ->
  errs =
    ((if lt zero o then [] else [("open", greater_than)]) ++
     (if lt zero h then [] else [("high", greater_than)]) ++
     (if lt zero l
      then if lt zero h && lt h l
           then [("low", value_error "low deve ser <= high")]
           else []
      else [("low", greater_than)]) ++
     (if lt zero c then [] else [("close", greater_than)]) ++
     (if le zero v then [] else [("volume", greater_than_equal)]))%list.
Proof.
  destruct S as [num0 zero0 lt0 le0 f32].
  unfold CandleData_init, validate_field, satisfies, bound_error,
    high_must_be_highest, low_must_be_lowest, initial_state. simpl in *.
  destruct (lt0 zero0 o), (lt0 zero0 h), (lt0 zero0 l), (lt0 zero0 c),
    (le0 zero0 v); vm_compute;
  try destruct (lt0 h l);
  intros Heq; inversion Heq; reflexivity.
Qed.

Section Info.
Context `{Scalar}.
Variable settings : Settings.

(** [get_model_info] loads nothing: cache, files and the record of
    storage accesses are as before.  The dict it returns tells the two
    flags as they are, has the shapes exactly when a model is cached
    and the feature count exactly when a scaler is. *)
Theorem get_model_info_is_passive (w : world) :
  undisturbed w (snd (get_model_info settings w)) /\
  forall info : gmap string info_value,
    fst (get_model_info settings w) = Return info ->
    info !! "model_loaded" = Some (InfoBool (is_model_loaded w)) /\
    info !! "scaler_loaded" = Some (InfoBool (is_scaler_loaded w)) /\
    info !! "input_shape" =
      match _model_cache w with
      | Some m =>
          match input_shape m with
          | Return shape => Some (InfoStr shape)
          | Raise _ => None
          end
      | None => None
      end /\
    info !! "n_features" =
      match _scaler_cache w with
      | Some s => Some (InfoCount (n_features_in_ s))
      | None => None
      end.
Proof.
  destruct w as [mc sc la te tf mf sf tr].
  unfold get_model_info, get_model, get_scaler, is_model_loaded,
    is_scaler_loaded, undisturbed, storage_accesses, bind, gets, modify, ret,
    lift, observe.
  simpl.
  destruct mc as [m|]; simpl.
  - destruct (input_shape m) as [shape_in|e1]; simpl.
    + destruct (output_shape m) as [shape_out|e2]; simpl.
      * destruct sc as [s|]; simpl; (split;
          [ repeat split; intros a; rewrite ?List.filter_app; simpl;
            rewrite ?app_nil_r; reflexivity
          | intros info Heq; inversion Heq; subst info; repeat split ]).
      * split;
          [ repeat split; intros a; rewrite ?List.filter_app; simpl;
            rewrite ?app_nil_r; reflexivity
          | intros info Heq; discriminate ].
    + split;
        [ repeat split; intros a; rewrite ?List.filter_app; simpl;
          rewrite ?app_nil_r; reflexivity
        | intros info Heq; discriminate ].
  - destruct sc as [s|]; simpl; (split;
      [ repeat split; intros a; rewrite ?List.filter_app; simpl;
        rewrite ?app_nil_r; reflexivity
      | intros info Heq; inversion Heq; subst info; repeat split ]).
Qed.

End Info.
End report_facts.

(** ** Each accessor keeps to its artifact *)

Module isolation_facts.
Import model_loader.
Section Facts.
Context `{Scalar}.
Variable settings : Settings.

(** Whatever its outcome, [get_model] leaves the scaler's slot and the
    scaler's storage alone, and [get_scaler] leaves the model's slot,
    the attempt flag and the model's storage alone. *)
Theorem accessors_keep_to_their_artifact (w : world) :
  (_scaler_cache (snd (get_model settings w)) = _scaler_cache w /\
   storage_accesses ScalerArtifact (snd (get_model settings w)) =
     storage_accesses ScalerArtifact w) /\
  (_model_cache (snd (get_scaler settings w)) = _model_cache w /\
   _load_attempted (snd (get_scaler settings w)) = _load_attempted w /\
   storage_accesses ModelArtifact (snd (get_scaler settings w)) =
     storage_accesses ModelArtifact w).
Proof.
  destruct w as [mc sc la te tf mf sf tr].
  unfold get_model, get_scaler, get_model_try, get_model_except,
    get_scaler_try, get_scaler_except, import_tensorflow, model_path_exists,
    load_model, scaler_path_exists, joblib_load, try_except, bind, modify,
    gets, ret, raise, lift, observe, set_model_cache, set_scaler_cache,
    set_load_attempted, storage_accesses.
  simpl. split.
  - destruct mc as [m0|]; simpl;
      [split; [reflexivity | rewrite List.filter_app; apply app_nil_r]|].
    destruct la; simpl;
      [split; [reflexivity | rewrite List.filter_app; apply app_nil_r]|].
    destruct tf as [[]|e0]; simpl;
      [|split; [reflexivity | rewrite List.filter_app; apply app_nil_r]].
    destruct mf as [|e1|m1]; simpl;
      try (split; [reflexivity | rewrite !List.filter_app; simpl;
                                 rewrite !app_nil_r; reflexivity]).
    destruct (input_shape m1); simpl;
      (split; [reflexivity | rewrite !List.filter_app; simpl;
                             rewrite !app_nil_r; reflexivity]).
  - destruct sc as [s0|]; simpl;
      [repeat split; rewrite List.filter_app; apply app_nil_r|].
    destruct sf as [|e1|s1]; simpl;
      (repeat split; rewrite !List.filter_app; simpl;
       rewrite !app_nil_r; reflexivity).
Qed.

End Facts.
End isolation_facts.

(** ** The further theorems with hypotheses, applied *)

Module sample_more.
Import schemas np monitoring model_loader inference api process sample.

Lemma latch_guard_is_dead_witness :
  get_model settings2
    (after settings2 starlette_str (Return tt) (Unreadable corrupt_file)
       (Stored scaler5) [call_get_model; call_predict [candle1; candle2]]) =
    (Raise load_failure,
     snd (get_model settings2
            (after settings2 starlette_str (Return tt) (Unreadable corrupt_file)
               (Stored scaler5) [call_get_model; call_predict [candle1; candle2]]))) /\
  load_failure <> mk_exn RuntimeError latched_message None.
Proof.
  assert (Hrun :
    get_model settings2
      (after settings2 starlette_str (Return tt) (Unreadable corrupt_file)
         (Stored scaler5) [call_get_model; call_predict [candle1; candle2]]) =
      (Raise load_failure,
       snd (get_model settings2
              (after settings2 starlette_str (Return tt) (Unreadable corrupt_file)
                 (Stored scaler5) [call_get_model; call_predict [candle1; candle2]]))))
    by (vm_compute; reflexivity).
  split; [exact Hrun|].
  exact (proj1 (process_facts.latch_guard_is_dead settings2 starlette_str
                  _ _ _ _ _ _ Hrun)).
Defined.

Lemma clear_cache_then_load_witness :
  tensorflow world_warm = Return tt /\
  model_file world_warm = Stored sum_model /\
  fst (get_model settings2 (snd (clear_cache world_warm))) = Return sum_model.
Proof.
  assert (Htf : tensorflow world_warm = Return tt) by reflexivity.
  assert (Hmf : model_file world_warm = Stored sum_model) by reflexivity.
  split; [exact Htf|]. split; [exact Hmf|].
  exact (proj1 (model_loader_facts.clear_cache_then_load settings2 world_warm
                  sum_model Htf Hmf (ex_intro _ "(None, 2, 5)" eq_refl))).
Defined.

Lemma get_scaler_idempotent_witness :
  get_scaler settings2 world_ok = (Return scaler5, snd (get_scaler settings2 world_ok)) /\
  fst (repeat_call (get_scaler settings2) 3 (snd (get_scaler settings2 world_ok))) =
    replicate 3 (Return scaler5).
Proof.
  assert (Hrun : get_scaler settings2 world_ok =
                 (Return scaler5, snd (get_scaler settings2 world_ok)))
    by reflexivity.
  split; [exact Hrun|].
  exact (proj1 (process_facts.get_scaler_idempotent settings2 world_ok _ scaler5 3 Hrun)).
Defined.

Lemma load_model_and_scaler_warms_witness :
  load_model_and_scaler settings2 world_ok = (Return (sum_model, scaler5), world_warm) /\
  warm world_warm = true /\
  fst (load_model_and_scaler settings2 world_warm) = Return (sum_model, scaler5).
Proof.
  assert (Hrun : load_model_and_scaler settings2 world_ok =
                 (Return (sum_model, scaler5), world_warm)) by reflexivity.
  destruct (process_facts.load_model_and_scaler_warms settings2 world_ok _ _ _ Hrun)
    as (Hwarm & Hagain & _).
  split; [exact Hrun|]. split; [exact Hwarm | exact Hagain].
Defined.

Lemma predict_on_warm_cache_is_quiet_witness :
  warm world_warm = true /\
  undisturbed world_warm
    (snd (predict settings2 pipeline2 [candle1; candle2] world_warm)).
Proof.
  assert (Hwarm : warm world_warm = true) by reflexivity.
  split; [exact Hwarm|].
  exact (process_facts.predict_on_warm_cache_is_quiet settings2 pipeline2
           [candle1; candle2] world_warm Hwarm).
Defined.

Lemma predict_handler_masks_503_witness :
  warm world_no_model = false /\
  load_model_and_scaler settings2 world_no_model =
    (Raise model_not_found, snd (load_model_and_scaler settings2 world_no_model)) /\
  fst (predict_handler settings2 starlette_str [candle1; candle2]
         (world_no_model, no_counts)) =
    HTTPException 500
      ("Erro interno ao processar predição: 503: " ++
       "Modelo não disponível. Tente novamente em alguns segundos.").
Proof.
  assert (Hcold : warm world_no_model = false) by reflexivity.
  assert (Hload : load_model_and_scaler settings2 world_no_model =
                  (Raise model_not_found,
                   snd (load_model_and_scaler settings2 world_no_model)))
    by reflexivity.
  split; [exact Hcold|]. split; [exact Hload|].
  exact (proj1 (process_facts.predict_handler_masks_503 settings2 starlette_str
                  [candle1; candle2] world_no_model _ no_counts _ Hcold Hload)).
Defined.

Lemma window_is_the_tail_witness :
  0 < lookback pipeline2 /\
  _get_last_sequence pipeline2 matrix3 world_ok = (Return matrix2, world_ok).
Proof.
  assert (Hpos : 0 < lookback pipeline2) by reflexivity.
  destruct (stage_facts.window_is_the_tail pipeline2 matrix3 world_ok Hpos)
    as (front & win & Hrun & _).
  split; [exact Hpos | reflexivity].
Defined.

Lemma nonpositive_lookback_disables_the_window_witness :
  lookback pipeline0 <= 0 /\
  _validate_input pipeline0 [] world_ok = (Return tt, world_ok) /\
  _get_last_sequence pipeline0 matrix3 world_ok = (Return matrix3, world_ok).
Proof.
  assert (Hzero : lookback pipeline0 <= 0) by (vm_compute; discriminate).
  destruct (stage_facts.nonpositive_lookback_disables_the_window
              pipeline0 [] matrix3 world_ok Hzero) as (Hvalid & Hwin).
  split; [exact Hzero|]. split; [exact Hvalid | exact Hwin].
Defined.

Lemma reshape_succeeds_iff_sizes_agree_witness :
  0 <= lookback pipeline2 /\
  Z.of_nat (size matrix3) <> lookback pipeline2 * Z.of_nat (n_features pipeline2) /\
  exists e,
    _reshape_for_lstm pipeline2 matrix3 world_ok = (Raise e, world_ok) /\
    exn_cls e = ValueError.
Proof.
  assert (Hpos : 0 <= lookback pipeline2) by (vm_compute; discriminate).
  assert (Hsize : Z.of_nat (size matrix3) <>
                  lookback pipeline2 * Z.of_nat (n_features pipeline2))
    by (vm_compute; discriminate).
  split; [exact Hpos|]. split; [exact Hsize|].
  exact (proj2 (stage_facts.reshape_succeeds_iff_sizes_agree
                  pipeline2 matrix3 world_ok Hpos) Hsize).
Defined.

Lemma reshape_keeps_rows_witness :
  Z.of_nat (length matrix2) = lookback pipeline2 /\
  Forall (fun row => length row = n_features pipeline2) matrix2 /\
  _reshape_for_lstm pipeline2 matrix2 world_ok = (Return [matrix2], world_ok).
Proof.
  assert (Hrows : Z.of_nat (length matrix2) = lookback pipeline2) by reflexivity.
  assert (Hcols : Forall (fun row => length row = n_features pipeline2) matrix2)
    by (repeat constructor).
  split; [exact Hrows|]. split; [exact Hcols|].
  exact (stage_facts.reshape_keeps_rows pipeline2 matrix2 world_ok Hrows Hcols).
Defined.

Lemma _predict_reads_the_first_entry_witness :
  get_model settings2 world_ok = (Return sum_model, snd (get_model settings2 world_ok)) /\
  model_predict sum_model [matrix2] = Return (Array [Array [Item 55]]) /\
  _predict settings2 [matrix2] world_ok = (Return 55, snd (get_model settings2 world_ok)).
Proof.
  assert (Hget : get_model settings2 world_ok =
                 (Return sum_model, snd (get_model settings2 world_ok)))
    by reflexivity.
  assert (Hout : model_predict sum_model [matrix2] = Return (Array [Array [Item 55]]))
    by reflexivity.
  split; [exact Hget|]. split; [exact Hout|].
  exact (stage_facts._predict_reads_the_first_entry (H := Z_scalar) settings2
           [matrix2] world_ok _ sum_model 55 [] [] Hget (or_intror Hout)).
Defined.

Lemma _predict_on_empty_output_witness :
  get_model settings2 world_empty_model =
    (Return empty_model, snd (get_model settings2 world_empty_model)) /\
  fst (_predict settings2 [matrix2] world_empty_model) = Raise (index_error 0 0 0).
Proof.
  assert (Hget : get_model settings2 world_empty_model =
                 (Return empty_model, snd (get_model settings2 world_empty_model)))
    by reflexivity.
  destruct (stage_facts._predict_on_empty_output settings2 [matrix2]
              world_empty_model _ empty_model Hget eq_refl) as (Hrun & _).
  split; [exact Hget|]. rewrite Hrun. reflexivity.
Defined.

Lemma predict_success_witness :
  fst (predict settings2 pipeline2 [candle1; candle2] world_ok) =
    Return {| prediction := 289; model_version := "1.0"; confidence := None |} /\
  (3 < n_features pipeline2)%nat /\
  is_model_loaded (snd (predict settings2 pipeline2 [candle1; candle2] world_ok)) = true /\
  is_scaler_loaded (snd (predict settings2 pipeline2 [candle1; candle2] world_ok)) = true.
Proof.
  assert (Hrun : predict settings2 pipeline2 [candle1; candle2] world_ok =
                 (Return {| prediction := 289; model_version := "1.0";
                            confidence := None |},
                  snd (predict settings2 pipeline2 [candle1; candle2] world_ok)))
    by (vm_compute; reflexivity).
  destruct (stage_facts.predict_success settings2 pipeline2 _ _ _ _ Hrun)
    as (_ & Hwide & _ & _ & Hm & Hs & _).
  split; [rewrite Hrun; reflexivity|]. split; [exact Hwide|].
  split; [exact Hm | exact Hs].
Defined.

Lemma CandleData_init_reports_every_failure_witness :
  CandleData_init 10 0 12 11 (-100) =
    ValidationError [("high", greater_than); ("volume", greater_than_equal)] /\
  CandleData_init 10 8 9 11 100 =
    ValidationError [("low", value_error "low deve ser <= high")].
Proof.
  assert (H1 : CandleData_init 10 0 12 11 (-100) =
               ValidationError [("high", greater_than); ("volume", greater_than_equal)])
    by (vm_compute; reflexivity).
  split; [exact H1|].
  assert (H2 : exists errs, CandleData_init 10 8 9 11 100 = ValidationError errs)
    by (eexists; vm_compute; reflexivity).
  destruct H2 as (errs & H2). rewrite H2. f_equal.
  exact (report_facts.CandleData_init_reports_every_failure Z_scalar _ _ _ _ _ _ H2).
Defined.

End sample_more.
